(** * go-clean-arch: the User service, layer by layer

    A shallow embedding of the repository's Go code:

    - [model]      : internal/domain/model (the [User] entity, the sentinel errors);
    - [strconv], [sql], [json] : the parts of Go's standard library the code calls,
      as far as the calls made here exercise them;
    - [repository] : the [UserRepository] interface and the raw-SQL implementation
      of src/internal/repository/sqlite_user_repository.go;
    - [usecase]    : src/internal/usecase/user_usecase.go (the forwarding use case);
    - [readme]     : the Echo + GORM variant printed in src/readme.md (ORM-backed
      repository, use case with duplicate check and time stamps, HTTP handler).

    Go values are modelled as follows.  Integers ([int], [int64], [uint]) are [Z];
    none of the modelled code does arithmetic on them, so no wrap-around arises.
    A [*model.User] result is an [option User] ([None] is the nil pointer), an
    [error] result is an [option error] ([None] is nil).  A method that receives
    a [*model.User] and may write through it returns the user as it stands after
    the call.  State (the database, the clock, logs) is passed explicitly. *)

From Stdlib Require Import ZArith String List Ascii Bool Lia DecimalString.
Import ListNotations.
Open Scope string_scope.
Open Scope list_scope.
Open Scope Z_scope.

(* ================================================================== *)
(** ** Outcomes and the state-passing monad *)

(** A Go call either returns or panics. *)
Inductive outcome (A : Type) : Type :=
| Ret (a : A)
| Panic (msg : string).
Arguments Ret {A} a.
Arguments Panic {A} msg.

(** A computation over a state [S]: it yields an outcome and the state it leaves. *)
Definition M (S A : Type) : Type := S -> outcome A * S.

Definition ret {S A} (a : A) : M S A := fun s => (Ret a, s).

Definition bind {S A B} (m : M S A) (k : A -> M S B) : M S B :=
  fun s =>
    match m s with
    | (Ret a, s') => k a s'
    | (Panic msg, s') => (Panic msg, s')
    end.

Definition panic {S A} (msg : string) : M S A := fun s => (Panic msg, s).

(** Recording a call: run [m] on the state and append [c] to the list of
    calls kept beside it.  Used to build the recording doubles below. *)
Definition record {S A C} (c : C) (m : M S A) : M (S * list C) A :=
  fun w =>
    let '(r, s') := m (fst w) in (r, (s', snd w ++ [c])).

Declare Scope go_scope.
Delimit Scope go_scope with go.
Notation "x <- m ;; k" := (bind m (fun x => k))
  (at level 61, m at next level, right associativity) : go_scope.
Notation "' p <- m ;; k" := (bind m (fun p => k))
  (at level 61, p pattern, m at next level, right associativity) : go_scope.

(* ================================================================== *)
(** ** internal/domain/model *)

Module model.

(** [time.Time]: an instant, counted from the zero value [time.Time{}]. *)
Definition Time : Type := Z.

(** src/unnamed/part_001, lines 7-14. *)
Record User : Type := mkUser {
  ID : Z;
  Name : string;
  Email : string;
  Password : string;
  CreatedAt : Time;
  UpdatedAt : Time
}.

(** [model.User{}]: every field at its zero value. *)
Definition zeroUser : User := mkUser 0 "" "" "" 0 0.

(** The fields of [User], in declaration order; [&user.Name] is [FName]. *)
Inductive Field : Type :=
| FID | FName | FEmail | FPassword | FCreatedAt | FUpdatedAt.

Definition fields : list Field :=
  [FID; FName; FEmail; FPassword; FCreatedAt; FUpdatedAt].

(** The [json:"..."] tag written on each field. *)
Definition json_tag (f : Field) : string :=
  match f with
  | FID => "id"
  | FName => "name"
  | FEmail => "email"
  | FPassword => "-"
  | FCreatedAt => "created_at"
  | FUpdatedAt => "updated_at"
  end.

Definition set_ID (v : Z) (u : User) : User :=
  mkUser v (Name u) (Email u) (Password u) (CreatedAt u) (UpdatedAt u).
Definition set_Name (v : string) (u : User) : User :=
  mkUser (ID u) v (Email u) (Password u) (CreatedAt u) (UpdatedAt u).
Definition set_Email (v : string) (u : User) : User :=
  mkUser (ID u) (Name u) v (Password u) (CreatedAt u) (UpdatedAt u).
Definition set_Password (v : string) (u : User) : User :=
  mkUser (ID u) (Name u) (Email u) v (CreatedAt u) (UpdatedAt u).
Definition set_CreatedAt (v : Time) (u : User) : User :=
  mkUser (ID u) (Name u) (Email u) (Password u) v (UpdatedAt u).
Definition set_UpdatedAt (v : Time) (u : User) : User :=
  mkUser (ID u) (Name u) (Email u) (Password u) (CreatedAt u) v.

(** Go error values.  The five sentinels of internal/domain/model/error.go,
    the two library sentinels the repositories compare against, and
    [errorString] for every other error value (driver, context, fmt.Errorf,
    strconv and binding errors).  The code compares errors by identity with
    sentinels only, which is equality of constructors here. *)
Inductive error : Type :=
| ErrInternalServerError
| ErrNotFound
| ErrConflict
| ErrBadRequest
| ErrInvalidCredentials
| sql_ErrNoRows
| gorm_ErrRecordNotFound
| errorString (msg : string).

Definition error_eqb (a b : error) : bool :=
  match a, b with
  | ErrInternalServerError, ErrInternalServerError => true
  | ErrNotFound, ErrNotFound => true
  | ErrConflict, ErrConflict => true
  | ErrBadRequest, ErrBadRequest => true
  | ErrInvalidCredentials, ErrInvalidCredentials => true
  | sql_ErrNoRows, sql_ErrNoRows => true
  | gorm_ErrRecordNotFound, gorm_ErrRecordNotFound => true
  | errorString x, errorString y => String.eqb x y
  | _, _ => false
  end.

(** [err.Error()]. *)
Definition Error (e : error) : string :=
  match e with
  | ErrInternalServerError => "internal server error"
  | ErrNotFound => "your requested item is not found"
  | ErrConflict => "your item already exists"
  | ErrBadRequest => "bad request"
  | ErrInvalidCredentials => "invalid credentials"
  | sql_ErrNoRows => "sql: no rows in result set"
  | gorm_ErrRecordNotFound => "record not found"
  | errorString msg => msg
  end.

End model.
Export model.

(* ================================================================== *)
(** ** context.Context *)

(** Only [ctx.Err()] is observed by the modelled code: a context is live,
    cancelled, or past its deadline. *)
Inductive Context : Type :=
| Background
| Canceled
| DeadlineExceeded.

Definition ctx_Err (ctx : Context) : option error :=
  match ctx with
  | Background => None
  | Canceled => Some (errorString "context canceled")
  | DeadlineExceeded => Some (errorString "context deadline exceeded")
  end.

(* ================================================================== *)
(** ** strconv *)

Module strconv.

Definition is_digit (c : ascii) : bool :=
  let n := N_of_ascii c in ((48 <=? n) && (n <=? 57))%N.

Definition digit_value (c : ascii) : Z := Z.of_N (N_of_ascii c) - 48.

Inductive NumErr : Type := ErrSyntax | ErrRange.

(** The digit loop of [ParseUint] in base 10: [n] is the value read so far and
    [maxVal] the largest value of the requested bit size. *)
Fixpoint parse_digits (maxVal : Z) (s : string) (n : Z) : Z + NumErr :=
  match s with
  | EmptyString => inl n
  | String c rest =>
      if is_digit c then
        let n1 := n * 10 + digit_value c in
        if maxVal <? n1 then inr ErrRange else parse_digits maxVal rest n1
      else inr ErrSyntax
  end.

(** [strconv.ParseUint(s, 10, bitSize)] for [bitSize] in 1..64. *)
Definition ParseUint (s : string) (bitSize : Z) : Z + NumErr :=
  match s with
  | EmptyString => inr ErrSyntax
  | _ => parse_digits (2 ^ bitSize - 1) s 0
  end.

(** [strconv.ParseInt(s, 10, 64)]: an optional sign, then [ParseUint] and the
    range check of the signed type. *)
Definition ParseInt64 (s : string) : Z + NumErr :=
  match s with
  | EmptyString => inr ErrSyntax
  | String c rest =>
      let neg := Ascii.eqb c "-" in
      let body := if neg || Ascii.eqb c "+" then rest else s in
      match ParseUint body 64 with
      | inr e => inr e
      | inl un =>
          if negb neg && (2 ^ 63 <=? un) then inr ErrRange
          else if neg && (2 ^ 63 <? un) then inr ErrRange
          else inl (if neg then - un else un)
      end
  end.

(** [strconv.FormatInt(i, 10)]. *)
Definition FormatInt (i : Z) : string := NilZero.string_of_int (Z.to_int i).

(** [strconv.Atoi(s)] where [int] has 64 bits: [ParseInt(s, 10, 0)].  Beside
    the error it returns a value: 0 after a syntax error, the nearest [int]
    after a range error. *)
Definition Atoi (s : string) : Z * option NumErr :=
  match ParseInt64 s with
  | inl n => (n, None)
  | inr ErrSyntax => (0, Some ErrSyntax)
  | inr ErrRange =>
      match s with
      | String "-" _ => (- 2 ^ 63, Some ErrRange)
      | _ => (2 ^ 63 - 1, Some ErrRange)
      end
  end.

End strconv.

(* ================================================================== *)
(** ** database/sql, as used through [QueryRowContext] and [Row.Scan] *)

Module sql.

(** A [driver.Value] as the SQLite driver hands it over. *)
Inductive Value : Type :=
| Null
| Int64 (z : Z)
| Text (s : string)
| TimeV (t : Time).

(** One row of the [users] table: id, name, email, password, created_at,
    updated_at. *)
Record UserRow : Type := mkRow {
  col_id : Value;
  col_name : Value;
  col_email : Value;
  col_password : Value;
  col_created_at : Value;
  col_updated_at : Value
}.

(** The database handle [*sql.DB]: the table, and the error (if any) with
    which the driver answers a query: connection lost, database closed. *)
Record DB : Type := mkDB {
  users : list UserRow;
  fault : option error
}.

(** The two statements the repository issues.
    [SelectByID id]:
      SELECT id, name, email, password, created_at, updated_at FROM users WHERE id = ?
    [SelectByEmail email]: the same with WHERE email = ? *)
Inductive Query : Type :=
| SelectByID (id : Z)
| SelectByEmail (email : string).

Definition value_eqb (a b : Value) : bool :=
  match a, b with
  | Int64 x, Int64 y => x =? y
  | Text x, Text y => String.eqb x y
  | TimeV x, TimeV y => x =? y
  | _, _ => false
  end.

(** The WHERE clause.  NULL equals nothing. *)
Definition selected (q : Query) (r : UserRow) : bool :=
  match q with
  | SelectByID id => value_eqb (col_id r) (Int64 id)
  | SelectByEmail email => value_eqb (col_email r) (Text email)
  end.

(** The select list: six columns, in the order of the statement. *)
Definition columns (r : UserRow) : list Value :=
  [col_id r; col_name r; col_email r; col_password r;
   col_created_at r; col_updated_at r].

(** [*sql.Row]: a deferred error, or the result set. *)
Record Row : Type := mkRowResult {
  row_err : option error;
  row_rows : list (list Value)
}.

(** [db.QueryRowContext(ctx, query, arg)].  A context that is already done
    and a failing driver both end in a [Row] that carries the error. *)
Definition QueryRowContext (db : DB) (ctx : Context) (q : Query) : Row :=
  match ctx_Err ctx with
  | Some e => mkRowResult (Some e) []
  | None =>
      match fault db with
      | Some e => mkRowResult (Some e) []
      | None => mkRowResult None (map columns (filter (selected q) (users db)))
      end
  end.

Section Scan.

(** [time.Time.Format(time.RFC3339Nano)], the text [convertAssign] stores when
    a time is scanned into a string. *)
Variable formatTime : Time -> string.

Definition scanError (i : Z) (why : string) : error :=
  errorString ("sql: Scan error on column index " ++ strconv.FormatInt i ++ ": " ++ why)%string.

(** [convertAssign(dest, src)] for the destination [&user.<f>]: [inl] is the
    user after the store, [inr] the reason of the failure.  Destinations are
    an int64 ([FID]), strings and [time.Time]s. *)
Definition convertAssign (f : Field) (src : Value) (u : User) : User + string :=
  match f with
  | FID =>
      match src with
      | Int64 z => inl (set_ID z u)
      | Text s =>
          match strconv.ParseInt64 s with
          | inl z => inl (set_ID z u)
          | inr _ => inr "converting driver.Value type string to a int64"
          end
      | TimeV _ => inr "converting driver.Value type time.Time to a int64"
      | Null => inr "converting NULL to int64 is unsupported"
      end
  | FName | FEmail | FPassword =>
      let store := match f with
                   | FName => set_Name
                   | FEmail => set_Email
                   | _ => set_Password
                   end in
      match src with
      | Text s => inl (store s u)
      | Int64 z => inl (store (strconv.FormatInt z) u)
      | TimeV t => inl (store (formatTime t) u)
      | Null => inr "converting NULL to string is unsupported"
      end
  | FCreatedAt | FUpdatedAt =>
      let store := match f with
                   | FCreatedAt => set_CreatedAt
                   | _ => set_UpdatedAt
                   end in
      match src with
      | TimeV t => inl (store t u)
      | _ => inr "unsupported Scan, storing driver.Value into type *time.Time"
      end
  end.

(** The column loop of [Rows.Scan]: destinations are filled left to right;
    the first failing conversion stops the loop and leaves the earlier stores
    in place.  [i] is the column index. *)
Fixpoint scan_columns (i : Z) (dest : list Field) (cols : list Value) (u : User)
  : option error * User :=
  match dest, cols with
  | f :: dest', v :: cols' =>
      match convertAssign f v u with
      | inl u' => scan_columns (i + 1) dest' cols' u'
      | inr why => (Some (scanError i why), u)
      end
  | _, _ => (None, u)
  end.

(** [Rows.Scan(dest...)]: the number of destinations must be the number of
    columns. *)
Definition Rows_Scan (cols : list Value) (dest : list Field) (u : User)
  : option error * User :=
  if Z.of_nat (length dest) =? Z.of_nat (length cols) then scan_columns 0 dest cols u
  else
    (Some (errorString ("sql: expected " ++ strconv.FormatInt (Z.of_nat (length cols))
                        ++ " destination arguments in Scan, not "
                        ++ strconv.FormatInt (Z.of_nat (length dest)))%string), u).

(** [row.Scan(dest...)]: the deferred error first; [sql.ErrNoRows] when the
    result set is empty; otherwise the first row is scanned. *)
Definition Scan (r : Row) (dest : list Field) (u : User) : option error * User :=
  match row_err r with
  | Some e => (Some e, u)
  | None =>
      match row_rows r with
      | [] => (Some sql_ErrNoRows, u)
      | cols :: _ => Rows_Scan cols dest u
      end
  end.

End Scan.

End sql.

(* ================================================================== *)
(** ** internal/repository *)

Module repository.

(** src/unnamed/part_000: the [UserRepository] interface, over the state [S]
    of an implementation. *)
Record UserRepository (S : Type) : Type := mkUserRepository {
  GetByID : Context -> Z -> M S (option User * option error);
  GetByEmail : Context -> string -> M S (option User * option error);
  Create : Context -> User -> M S (option error * User);
  Update : Context -> User -> M S (option error * User);
  Delete : Context -> Z -> M S (option error);
  List : Context -> Z -> Z -> M S (list User * option error)
}.
Arguments GetByID {S} _ _ _ _.
Arguments GetByEmail {S} _ _ _ _.
Arguments Create {S} _ _ _ _.
Arguments Update {S} _ _ _ _.
Arguments Delete {S} _ _ _ _.
Arguments List {S} _ _ _ _ _.

(** What the raw-SQL repository works on: the database handle and the lines
    written with [log.Printf]. *)
Record Env : Type := mkEnv {
  db : sql.DB;
  log : list string
}.

Definition log_Printf (line : string) : M Env unit :=
  fun e => (Ret tt, mkEnv (db e) (log e ++ [line])).

Section sqlite.

Variable formatTime : Time -> string.

(** src/internal/repository/sqlite_user_repository.go, lines 22-46. *)
Definition sqlite_GetByID (ctx : Context) (id : Z)
  : M Env (option User * option error) :=
  fun e =>
    let row := sql.QueryRowContext (db e) ctx (sql.SelectByID id) in
    let user := zeroUser in
    let '(err, user) :=
      sql.Scan formatTime row [FID; FName; FPassword; FCreatedAt; FUpdatedAt] user in
    match err with
    | Some err =>
        if error_eqb err sql_ErrNoRows then (Ret (None, Some ErrNotFound), e)
        else
          (_ <- log_Printf ("Error getting user by id: " ++ Error err)%string ;;
           ret (None, Some ErrInternalServerError))%go e
    | None => (Ret (Some user, None), e)
    end.

(** src/internal/repository/sqlite_user_repository.go, lines 48-70. *)
Definition sqlite_GetByEmail (ctx : Context) (email : string)
  : M Env (option User * option error) :=
  fun e =>
    let row := sql.QueryRowContext (db e) ctx (sql.SelectByEmail email) in
    let user := zeroUser in
    let '(err, user) :=
      sql.Scan formatTime row
        [FID; FName; FEmail; FPassword; FCreatedAt; FUpdatedAt] user in
    match err with
    | Some err =>
        if error_eqb err sql_ErrNoRows then (Ret (None, Some ErrNotFound), e)
        else (Ret (Some user, None), e)
    | None => (Ret (Some user, None), e)
    end.

(** [NewSQLiteUserRepository(db)]; lines 73-91 for the four methods that are
    not implemented. *)
Definition NewSQLiteUserRepository : UserRepository Env :=
  {| GetByID := sqlite_GetByID;
     GetByEmail := sqlite_GetByEmail;
     Create := fun _ _ => panic "unimplemented";
     Update := fun _ _ => panic "unimplemented";
     Delete := fun _ _ => panic "unimplemented";
     List := fun _ _ _ => panic "unimplemented" |}.

End sqlite.

(** A recording double of a repository: it forwards every call and appends
    it, with its arguments, to a list of calls kept beside the state. *)
Inductive Call : Type :=
| CallGetByID (ctx : Context) (id : Z)
| CallGetByEmail (ctx : Context) (email : string)
| CallCreate (ctx : Context) (user : User)
| CallUpdate (ctx : Context) (user : User)
| CallDelete (ctx : Context) (id : Z)
| CallList (ctx : Context) (limit offset : Z).

Definition spy {S} (r : UserRepository S) : UserRepository (S * list Call) :=
  {| GetByID := fun ctx id => record (CallGetByID ctx id) (GetByID r ctx id);
     GetByEmail := fun ctx email => record (CallGetByEmail ctx email) (GetByEmail r ctx email);
     Create := fun ctx user => record (CallCreate ctx user) (Create r ctx user);
     Update := fun ctx user => record (CallUpdate ctx user) (Update r ctx user);
     Delete := fun ctx id => record (CallDelete ctx id) (Delete r ctx id);
     List := fun ctx limit offset => record (CallList ctx limit offset) (List r ctx limit offset) |}.

End repository.

(* ================================================================== *)
(** ** internal/usecase (src/internal/usecase/user_usecase.go) *)

Module usecase.

(** Lines 11-17: the [UserUsecase] interface, over the state [W] the
    implementation runs on. *)
Record UserUsecase (W : Type) : Type := mkUserUsecase {
  GetByID : Context -> Z -> M W (option User * option error);
  Create : Context -> User -> M W (option error * User);
  Update : Context -> User -> M W (option error * User);
  Delete : Context -> Z -> M W (option error);
  List : Context -> Z -> Z -> M W (list User * option error)
}.
Arguments GetByID {W} _ _ _ _.
Arguments Create {W} _ _ _ _.
Arguments Update {W} _ _ _ _.
Arguments Delete {W} _ _ _ _.
Arguments List {W} _ _ _ _ _.

Section userUsecase.

Context {S : Type}.
Variable userRepo : repository.UserRepository S.

(** Lines 29-31. *)
Definition userUsecase_GetByID (ctx : Context) (id : Z) :=
  repository.GetByID userRepo ctx id.

(** Lines 33-35. *)
Definition userUsecase_Create (ctx : Context) (user : User) :=
  repository.Create userRepo ctx user.

(** Lines 37-39. *)
Definition userUsecase_Update (ctx : Context) (user : User) :=
  repository.Update userRepo ctx user.

(** Lines 41-43. *)
Definition userUsecase_Delete (ctx : Context) (id : Z) :=
  repository.Delete userRepo ctx id.

(** Lines 45-47. *)
Definition userUsecase_List (ctx : Context) (limit offset : Z) :=
  repository.List userRepo ctx limit offset.

(** Lines 23-27. *)
Definition NewUserUsecase : UserUsecase S :=
  {| GetByID := userUsecase_GetByID;
     Create := userUsecase_Create;
     Update := userUsecase_Update;
     Delete := userUsecase_Delete;
     List := userUsecase_List |}.

End userUsecase.

(** A recording double of a use case, for the handler layer. *)
Inductive Call : Type :=
| CallGetByID (ctx : Context) (id : Z)
| CallCreate (ctx : Context) (user : User)
| CallUpdate (ctx : Context) (user : User)
| CallDelete (ctx : Context) (id : Z)
| CallList (ctx : Context) (limit offset : Z).

Definition spy {W} (u : UserUsecase W) : UserUsecase (W * list Call) :=
  {| GetByID := fun ctx id => record (CallGetByID ctx id) (GetByID u ctx id);
     Create := fun ctx user => record (CallCreate ctx user) (Create u ctx user);
     Update := fun ctx user => record (CallUpdate ctx user) (Update u ctx user);
     Delete := fun ctx id => record (CallDelete ctx id) (Delete u ctx id);
     List := fun ctx limit offset => record (CallList ctx limit offset) (List u ctx limit offset) |}.

End usecase.

(* ================================================================== *)
(** ** encoding/json on [model.User] *)

Module json.

Section Marshal.

(** [strconv]-style quoting of a JSON string literal, and
    [time.Time.MarshalJSON] (which fails for years outside 0..9999). *)
Variable quote : string -> string.
Variable marshalTime : Time -> string + error.

(** The encoded value of one field. *)
Definition field_text (f : Field) (u : User) : string + error :=
  match f with
  | FID => inl (strconv.FormatInt (ID u))
  | FName => inl (quote (Name u))
  | FEmail => inl (quote (Email u))
  | FPassword => inl (quote (Password u))
  | FCreatedAt => marshalTime (CreatedAt u)
  | FUpdatedAt => marshalTime (UpdatedAt u)
  end.

(** The members of the object, in field order; a field tagged ["-"] is
    left out. *)
Fixpoint members (fs : list Field) (u : User) : list string + error :=
  match fs with
  | [] => inl []
  | f :: fs' =>
      if String.eqb (json_tag f) "-" then members fs' u
      else
        match field_text f u with
        | inr e => inr e
        | inl v =>
            match members fs' u with
            | inr e => inr e
            | inl ms => inl ((quote (json_tag f) ++ ":" ++ v)%string :: ms)
            end
        end
  end.

(** [json.Marshal(user)]: the text of the object, or the error. *)
Definition Marshal (u : User) : string + error :=
  match members fields u with
  | inr e => inr e
  | inl ms => inl ("{" ++ String.concat "," ms ++ "}")%string
  end.

End Marshal.

End json.

(* ================================================================== *)
(** ** The Echo + GORM variant of src/readme.md *)

Module readme.

(** *** gorm.io/gorm, as the repository sees it *)

Module gorm.

(** What the repository reads off the [*gorm.DB] a call returns. *)
Record Result : Type := mkResult {
  Error : option error;
  RowsAffected : Z
}.

(** The ORM calls the repository makes, over the state [D] of the ORM and
    its database.  A call that receives a pointer to a user (the destination of
    a query, the value to insert or save) returns the user as the ORM left it.
      [First ctx id dest]          db.WithContext(ctx).First(&user, id)
      [Where_email_First ctx e d]  db.WithContext(ctx).Where("email = ?", e).First(&user)
      [Create ctx user]            db.WithContext(ctx).Create(user)
      [Save ctx user]              db.WithContext(ctx).Save(user)
      [Delete ctx id]              db.WithContext(ctx).Delete(&model.User{}, id)
      [Limit_Offset_Find ctx l o]  db.WithContext(ctx).Limit(l).Offset(o).Find(&users) *)
Record DB (D : Type) : Type := mkDB {
  First : Context -> Z -> User -> M D (Result * User);
  Where_email_First : Context -> string -> User -> M D (Result * User);
  Create : Context -> User -> M D (Result * User);
  Save : Context -> User -> M D (Result * User);
  Delete : Context -> Z -> M D Result;
  Limit_Offset_Find : Context -> Z -> Z -> M D (Result * list User)
}.
Arguments First {D} _ _ _ _ _.
Arguments Where_email_First {D} _ _ _ _ _.
Arguments Create {D} _ _ _ _.
Arguments Save {D} _ _ _ _.
Arguments Delete {D} _ _ _ _.
Arguments Limit_Offset_Find {D} _ _ _ _ _.

(** [errors.Is(err, target)]; the modelled errors wrap nothing. *)
Definition errors_Is (err target : error) : bool := error_eqb err target.

End gorm.

(** *** internal/repository/gorm_repository.go (readme lines 147-243) *)

Section gormUserRepository.

Context {D : Type}.
Variable db : gorm.DB D.

(** Readme lines 170-182. *)
Definition gorm_GetByID (ctx : Context) (id : Z) : M D (option User * option error) :=
  ('(result, user) <- gorm.First db ctx id zeroUser ;;
   match gorm.Error result with
   | Some err =>
       if gorm.errors_Is err gorm_ErrRecordNotFound then ret (None, Some ErrNotFound)
       else ret (None, Some ErrInternalServerError)
   | None => ret (Some user, None)
   end)%go.

(** Readme lines 184-196. *)
Definition gorm_GetByEmail (ctx : Context) (email : string)
  : M D (option User * option error) :=
  ('(result, user) <- gorm.Where_email_First db ctx email zeroUser ;;
   match gorm.Error result with
   | Some err =>
       if gorm.errors_Is err gorm_ErrRecordNotFound then ret (None, Some ErrNotFound)
       else ret (None, Some ErrInternalServerError)
   | None => ret (Some user, None)
   end)%go.

(** Readme lines 198-205. *)
Definition gorm_Create (ctx : Context) (user : User) : M D (option error * User) :=
  ('(result, user) <- gorm.Create db ctx user ;;
   match gorm.Error result with
   | Some _ => ret (Some ErrInternalServerError, user)
   | None => ret (None, user)
   end)%go.

(** Readme lines 207-218. *)
Definition gorm_Update (ctx : Context) (user : User) : M D (option error * User) :=
  ('(result, user) <- gorm.Save db ctx user ;;
   match gorm.Error result with
   | Some _ => ret (Some ErrInternalServerError, user)
   | None =>
       if gorm.RowsAffected result =? 0 then ret (Some ErrNotFound, user)
       else ret (None, user)
   end)%go.

(** Readme lines 220-231. *)
Definition gorm_Delete (ctx : Context) (id : Z) : M D (option error) :=
  (result <- gorm.Delete db ctx id ;;
   match gorm.Error result with
   | Some _ => ret (Some ErrInternalServerError)
   | None =>
       if gorm.RowsAffected result =? 0 then ret (Some ErrNotFound)
       else ret None
   end)%go.

(** Readme lines 233-242. *)
Definition gorm_List (ctx : Context) (limit offset : Z) : M D (list User * option error) :=
  ('(result, users) <- gorm.Limit_Offset_Find db ctx limit offset ;;
   match gorm.Error result with
   | Some _ => ret ([], Some ErrInternalServerError)
   | None => ret (users, None)
   end)%go.

(** Readme lines 164-168. *)
Definition NewGormUserRepository : repository.UserRepository D :=
  {| repository.GetByID := gorm_GetByID;
     repository.GetByEmail := gorm_GetByEmail;
     repository.Create := gorm_Create;
     repository.Update := gorm_Update;
     repository.Delete := gorm_Delete;
     repository.List := gorm_List |}.

End gormUserRepository.

(** *** internal/usecase/user_usecase.go (readme lines 249-332) *)

Section userUsecase.

Context {S : Type}.
Variable userRepo : repository.UserRepository S.

(** The wall clock: [clock n] is what the [n]-th reading of [time.Now()]
    returns.  The use case runs on the repository's state and the number of
    readings taken so far. *)
Variable clock : nat -> Time.

Definition time_Now : M (S * nat) Time :=
  fun w => (Ret (clock (snd w)), (fst w, Datatypes.S (snd w))).

(** A repository call, run on the repository's part of the state. *)
Definition call {A} (m : M S A) : M (S * nat) A :=
  fun w => let '(r, s') := m (fst w) in (r, (s', snd w)).

Definition isNil {A} (p : option A) : bool :=
  match p with None => true | Some _ => false end.

(** [err != nil && err != target]. *)
Definition isOtherThan (err : option error) (target : error) : bool :=
  match err with None => false | Some e => negb (error_eqb e target) end.

(** Readme lines 280-282. *)
Definition userUsecase_GetByID (ctx : Context) (id : Z) :=
  call (repository.GetByID userRepo ctx id).

(** Readme lines 284-302. *)
Definition userUsecase_Create (ctx : Context) (user : User)
  : M (S * nat) (option error * User) :=
  ('(existingUser, err) <- call (repository.GetByEmail userRepo ctx (Email user)) ;;
   if isNil err && negb (isNil existingUser) then ret (Some ErrConflict, user)
   else if isOtherThan err ErrNotFound then ret (err, user)
   else
     now <- time_Now ;;
     let user := set_CreatedAt now user in
     let user := set_UpdatedAt now user in
     call (repository.Create userRepo ctx user))%go.

(** Readme lines 304-315. *)
Definition userUsecase_Update (ctx : Context) (user : User)
  : M (S * nat) (option error * User) :=
  ('(_, err) <- call (repository.GetByID userRepo ctx (ID user)) ;;
   match err with
   | Some e => ret (Some e, user)
   | None =>
       now <- time_Now ;;
       let user := set_UpdatedAt now user in
       call (repository.Update userRepo ctx user)
   end)%go.

(** Readme lines 317-319. *)
Definition userUsecase_Delete (ctx : Context) (id : Z) :=
  call (repository.Delete userRepo ctx id).

(** Readme lines 321-331. *)
Definition userUsecase_List (ctx : Context) (limit offset : Z) :=
  let limit := if limit <=? 0 then 10 else limit in
  let offset := if offset <? 0 then 0 else offset in
  call (repository.List userRepo ctx limit offset).

(** Readme lines 274-278. *)
Definition NewUserUsecase : usecase.UserUsecase (S * nat) :=
  {| usecase.GetByID := userUsecase_GetByID;
     usecase.Create := userUsecase_Create;
     usecase.Update := userUsecase_Update;
     usecase.Delete := userUsecase_Delete;
     usecase.List := userUsecase_List |}.

End userUsecase.

(** *** internal/delivery/http/handler/user_handler.go (readme lines 338-511) *)

(** net/http status codes used by the handler. *)
Module http.
Definition StatusOK : Z := 200.
Definition StatusCreated : Z := 201.
Definition StatusNoContent : Z := 204.
Definition StatusBadRequest : Z := 400.
Definition StatusUnauthorized : Z := 401.
Definition StatusNotFound : Z := 404.
Definition StatusConflict : Z := 409.
Definition StatusInternalServerError : Z := 500.
End http.

(** What a handler reads from its [echo.Context]: the [:id] path parameter,
    the request's context, and [c.Bind(&user)], which decodes the body into
    the user it is given and reports a decoding error. *)
Record echo_Context : Type := mkEchoContext {
  Param_id : string;
  Request_Context : Context;
  Bind : User -> option error * User
}.

(** The response written by [c.JSON] or [c.NoContent]:
    [Message m] is the object {"message": m}, [Data u] the object {"data": u}. *)
Inductive Body : Type :=
| Message (msg : string)
| Data (user : option User)
| NoBody.

Record Response : Type := mkResponse {
  Status : Z;
  body : Body
}.

Definition c_JSON {W} (code : Z) (b : Body) : M W Response := ret (mkResponse code b).
Definition c_NoContent {W} (code : Z) : M W Response := ret (mkResponse code NoBody).

(** Readme lines 493-510. *)
Definition getStatusCode (err : option error) : Z :=
  match err with
  | None => http.StatusOK
  | Some err =>
      match err with
      | ErrInternalServerError => http.StatusInternalServerError
      | ErrNotFound => http.StatusNotFound
      | ErrConflict => http.StatusConflict
      | ErrInvalidCredentials => http.StatusUnauthorized
      | _ => http.StatusInternalServerError
      end
  end.

Section UserHandler.

Context {W : Type}.
Variable UserUsecase : usecase.UserUsecase W.

(** Readme lines 389-409. *)
Definition GetUser (c : echo_Context) : M W Response :=
  let idParam := Param_id c in
  match strconv.ParseUint idParam 32 with
  | inr _ => c_JSON http.StatusBadRequest (Message "invalid id parameter")
  | inl id =>
      let ctx := Request_Context c in
      ('(user, err) <- usecase.GetByID UserUsecase ctx id ;;
       match err with
       | Some e => c_JSON (getStatusCode err) (Message (Error e))
       | None => c_JSON http.StatusOK (Data user)
       end)%go
  end.

(** Readme lines 412-437. *)
Definition CreateUser (c : echo_Context) : M W Response :=
  let '(err, user) := Bind c zeroUser in
  match err with
  | Some e => c_JSON http.StatusBadRequest (Message (Error e))
  | None =>
      if String.eqb (Name user) "" || String.eqb (Email user) ""
         || String.eqb (Password user) ""
      then c_JSON http.StatusBadRequest (Message "name, email and password are required")
      else
        let ctx := Request_Context c in
        ('(err, user) <- usecase.Create UserUsecase ctx user ;;
         match err with
         | Some e => c_JSON (getStatusCode err) (Message (Error e))
         | None => c_JSON http.StatusCreated (Data (Some user))
         end)%go
  end.

(** Readme lines 440-469. *)
Definition UpdateUser (c : echo_Context) : M W Response :=
  let idParam := Param_id c in
  match strconv.ParseUint idParam 32 with
  | inr _ => c_JSON http.StatusBadRequest (Message "invalid id parameter")
  | inl id =>
      let '(err, user) := Bind c zeroUser in
      match err with
      | Some e => c_JSON http.StatusBadRequest (Message (Error e))
      | None =>
          let user := set_ID id user in
          let ctx := Request_Context c in
          ('(err, user) <- usecase.Update UserUsecase ctx user ;;
           match err with
           | Some e => c_JSON (getStatusCode err) (Message (Error e))
           | None => c_JSON http.StatusOK (Data (Some user))
           end)%go
      end
  end.

(** Readme lines 472-490. *)
Definition DeleteUser (c : echo_Context) : M W Response :=
  let idParam := Param_id c in
  match strconv.ParseUint idParam 32 with
  | inr _ => c_JSON http.StatusBadRequest (Message "invalid id parameter")
  | inl id =>
      let ctx := Request_Context c in
      (err <- usecase.Delete UserUsecase ctx id ;;
       match err with
       | Some e => c_JSON (getStatusCode err) (Message (Error e))
       | None => c_NoContent http.StatusNoContent
       end)%go
  end.

End UserHandler.

(** *** A table in memory behind the ORM interface

    [tableDB] answers each ORM call with the SQL statements the call stands
    for, run on a list of stored users: SELECT ... LIMIT 1 for [First], INSERT
    for [Create], DELETE by primary key for [Delete], SELECT with LIMIT and
    OFFSET for [Find] (no LIMIT clause for a negative limit), and for [Save]
    an UPDATE by primary key followed, when it affected no row, by an INSERT:
    gorm's [Save] stores the record whether or not its key is new.  It is a
    double to run the repository against in examples. *)

Definition found : gorm.Result := gorm.mkResult None 1.
Definition affected (n : Z) : gorm.Result := gorm.mkResult None n.
Definition failed (e : error) : gorm.Result := gorm.mkResult (Some e) 0.

Definition has_id (id : Z) (u : User) : bool := ID u =? id.
Definition has_email (email : string) (u : User) : bool := String.eqb (Email u) email.

Definition select_first (p : User -> bool) (dest : User) : M (list User) (gorm.Result * User) :=
  fun t =>
    match find p t with
    | Some u => (Ret (found, u), t)
    | None => (Ret (failed gorm_ErrRecordNotFound, dest), t)
    end.

Definition next_id (t : list User) : Z := 1 + fold_right (fun u m => Z.max (ID u) m) 0 t.

Definition insert (user : User) : M (list User) (gorm.Result * User) :=
  fun t =>
    if existsb (has_email (Email user)) t
    then (Ret (failed (errorString "UNIQUE constraint failed: users.email"), user), t)
    else
      let user := if ID user =? 0 then set_ID (next_id t) user else user in
      (Ret (affected 1, user), t ++ [user]).

Definition update_by_id (user : User) : M (list User) (gorm.Result * User) :=
  fun t =>
    let n := Z.of_nat (length (filter (has_id (ID user)) t)) in
    (Ret (affected n, user), map (fun u => if has_id (ID user) u then user else u) t).

(** [Save]: the UPDATE, and the INSERT when the UPDATE affected no row. *)
Definition save (user : User) : M (list User) (gorm.Result * User) :=
  fun t =>
    if Z.of_nat (length (filter (has_id (ID user)) t)) =? 0 then insert user t
    else update_by_id user t.

Definition delete_by_id (id : Z) : M (list User) gorm.Result :=
  fun t =>
    let n := Z.of_nat (length (filter (has_id id) t)) in
    (Ret (affected n), filter (fun u => negb (has_id id u)) t).

Definition select_page (limit offset : Z) : M (list User) (gorm.Result * list User) :=
  fun t =>
    let rest := skipn (Z.to_nat offset) t in
    let page := if limit <? 0 then rest else firstn (Z.to_nat limit) rest in
    (Ret (affected (Z.of_nat (length page)), page), t).

Definition tableDB : gorm.DB (list User) :=
  {| gorm.First := fun _ id dest => select_first (has_id id) dest;
     gorm.Where_email_First := fun _ email dest => select_first (has_email email) dest;
     gorm.Create := fun _ user => insert user;
     gorm.Save := fun _ user => save user;
     gorm.Delete := fun _ id => delete_by_id id;
     gorm.Limit_Offset_Find := fun _ limit offset => select_page limit offset |}.

(** An ORM whose database cannot be reached: every call fails with [e]. *)
Definition downDB (e : error) : gorm.DB unit :=
  {| gorm.First := fun _ _ dest => ret (failed e, dest);
     gorm.Where_email_First := fun _ _ dest => ret (failed e, dest);
     gorm.Create := fun _ user => ret (failed e, user);
     gorm.Save := fun _ user => ret (failed e, user);
     gorm.Delete := fun _ _ => ret (failed e);
     gorm.Limit_Offset_Find := fun _ _ _ => ret (failed e, []) |}.

(** *** [GetUsers] (readme lines 371-386) *)

(** The response of [GetUsers]: {"message": m} or {"data": users}. *)
Inductive ListBody : Type :=
| ListMessage (msg : string)
| ListData (users : list User).

Record ListResponse : Type := mkListResponse {
  ListStatus : Z;
  list_body : ListBody
}.

Section GetUsers.

Context {W : Type}.
Variable UserUsecase : usecase.UserUsecase W.

(** [QueryParam] is [c.QueryParam]: the text of a query parameter, empty
    when the request has none of that name. *)
Definition GetUsers (QueryParam : string -> string) (c : echo_Context)
  : M W ListResponse :=
  let '(limit, _) := strconv.Atoi (QueryParam "limit") in
  let '(offset, _) := strconv.Atoi (QueryParam "offset") in
  let ctx := Request_Context c in
  ('(users, err) <- usecase.List UserUsecase ctx limit offset ;;
   match err with
   | Some e => ret (mkListResponse (getStatusCode err) (ListMessage (Error e)))
   | None => ret (mkListResponse http.StatusOK (ListData users))
   end)%go.

End GetUsers.

(** *** pkg/config/config.go (readme lines 620-670) *)

Record Config : Type := mkConfig {
  AppPort : string;
  DBDriver : string;
  DBHost : string;
  DBPort : string;
  DBUser : string;
  DBPassword : string;
  DBName : string;
  SQLitePath : string
}.

(** The process as the configuration code sees it: [os.Getenv] (empty for a
    variable that is not set) and the lines written with [log.Println]. *)
Record OS : Type := mkOS {
  Getenv : string -> string;
  printed : list string
}.

Definition log_Println (line : string) : M OS unit :=
  fun os => (Ret tt, mkOS (Getenv os) (printed os ++ [line])).

(** Readme lines 663-669. *)
Definition getEnv (key defaultValue : string) : M OS string :=
  fun os =>
    let value := Getenv os key in
    if String.eqb value "" then (Ret defaultValue, os) else (Ret value, os).

Section LoadConfig.

(** [godotenv.Load()]: what reading the .env file does to the environment,
    and the error it reports. *)
Variable godotenv_Load : (string -> string) -> option error * (string -> string).

(** Readme lines 644-660. *)
Definition LoadConfig : M OS Config :=
  (err <- (fun os => let '(err, env) := godotenv_Load (Getenv os) in
                     (Ret err, mkOS env (printed os))) ;;
   _ <- match err with
        | Some _ => log_Println "Warning: .env file not found. Using environment variables."
        | None => ret tt
        end ;;
   appPort <- getEnv "APP_PORT" "8080" ;;
   dbDriver <- getEnv "DB_DRIVER" "sqlite" ;;
   dbHost <- getEnv "DB_HOST" "localhost" ;;
   dbPort <- getEnv "DB_PORT" "3306" ;;
   dbUser <- getEnv "DB_USER" "root" ;;
   dbPassword <- getEnv "DB_PASSWORD" "password" ;;
   dbName <- getEnv "DB_NAME" "cleanarch" ;;
   sqlitePath <- getEnv "SQLITE_PATH" "database.db" ;;
   ret (mkConfig appPort dbDriver dbHost dbPort dbUser dbPassword dbName sqlitePath))%go.

End LoadConfig.

(** *** pkg/database/database.go (readme lines 562-614) and [setupDatabase]
    (readme lines 723-736) *)

(** What [gorm.Open] is given: [mysql.Open(dsn)] or [sqlite.Open(path)]. *)
Inductive Dialector : Type :=
| mysql_Open (dsn : string)
| sqlite_Open (dbPath : string).

Section database.

(** [X] is the world outside the process (files, network), [Handle] the
    [*gorm.DB] that [gorm.Open] returns beside its error. *)
Context {X Handle : Type}.
Variable gorm_Open : Dialector -> M X (Handle * option error).
Variable AutoMigrate : Handle -> M X (option error).

(** Readme lines 578-596. *)
Definition NewMySQLDatabase (username password host port dbname : string)
  : M X (option Handle * option error) :=
  let dsn := (username ++ ":" ++ password ++ "@tcp(" ++ host ++ ":" ++ port ++ ")/"
              ++ dbname ++ "?charset=utf8mb4&parseTime=True&loc=Local")%string in
  ('(db, err) <- gorm_Open (mysql_Open dsn) ;;
   match err with
   | Some e => ret (None, Some e)
   | None =>
       err <- AutoMigrate db ;;
       match err with
       | Some e => ret (None, Some e)
       | None => ret (Some db, None)
       end
   end)%go.

(** Readme lines 599-614. *)
Definition NewSQLiteDatabase (dbPath : string) : M X (option Handle * option error) :=
  ('(db, err) <- gorm_Open (sqlite_Open dbPath) ;;
   match err with
   | Some e => ret (None, Some e)
   | None =>
       err <- AutoMigrate db ;;
       match err with
       | Some e => ret (None, Some e)
       | None => ret (Some db, None)
       end
   end)%go.

(** cmd/api/main.go, readme lines 723-736. *)
Definition setupDatabase (cfg : Config) : M X (option Handle * option error) :=
  if String.eqb (DBDriver cfg) "mysql" then
    NewMySQLDatabase (DBUser cfg) (DBPassword cfg) (DBHost cfg) (DBPort cfg) (DBName cfg)
  else NewSQLiteDatabase (SQLitePath cfg).

End database.

(** A recording double of [gorm.Open] and [AutoMigrate]: the world is the
    list of calls made; [Open] fails on the dialectors in [unreachable], and
    [AutoMigrate] fails when [broken] is set. *)
Inductive SetupCall : Type :=
| CallOpen (d : Dialector)
| CallAutoMigrate.

Definition open_double (unreachable : Dialector -> bool) (d : Dialector)
  : M (list SetupCall) (unit * option error) :=
  fun calls =>
    (Ret (tt, if unreachable d then Some (errorString "unable to open database") else None),
     calls ++ [CallOpen d]).

Definition migrate_double (broken : bool) (_ : unit) : M (list SetupCall) (option error) :=
  fun calls =>
    (Ret (if broken then Some (errorString "migration failed") else None),
     calls ++ [CallAutoMigrate]).

End readme.

(* ================================================================== *)
(** ** Running the use cases against a recording repository *)

(** The repository calls made by the forwarding use case's [List] (src),
    started on state [s] with an empty list of calls. *)
Definition src_List_calls {S} (r : repository.UserRepository S)
  (ctx : Context) (limit offset : Z) (s : S) : list repository.Call :=
  snd (snd (usecase.List (usecase.NewUserUsecase (repository.spy r))
              ctx limit offset (s, []))).

(** The same for the readme's use case. *)
Definition readme_List_calls {S} (r : repository.UserRepository S) (clock : nat -> Time)
  (ctx : Context) (limit offset : Z) (s : S) : list repository.Call :=
  snd (fst (snd (usecase.List (readme.NewUserUsecase (repository.spy r) clock)
                   ctx limit offset ((s, []), 0%nat)))).

(* ================================================================== *)
(** ** The wiring of cmd/api/main.go, and vocabulary for the statements *)

(** Readme lines 703-706: the ORM-backed repository under the readme's use
    case.  It runs on the ORM's state and the number of clock readings. *)
Definition main_usecase {D} (db : readme.gorm.DB D) (clock : nat -> Time)
  : usecase.UserUsecase (D * nat) :=
  readme.NewUserUsecase (readme.NewGormUserRepository db) clock.

(** Every character of [s] is a decimal digit. *)
Fixpoint all_digits (s : string) : bool :=
  match s with
  | EmptyString => true
  | String c rest => strconv.is_digit c && all_digits rest
  end.

(** The errors the ORM-backed repository lets out. *)
Definition nil_NotFound_or_Internal (err : option error) : Prop :=
  err = None \/ err = Some ErrNotFound \/ err = Some ErrInternalServerError.

(** [value] is what the environment [env] gives for [key], with [default]
    standing in for an empty or missing variable. *)
Definition setting_of (env : string -> string) (key default value : string) : Prop :=
  (env key = "" -> value = default) /\ (env key <> "" -> value = env key).

(* ================================================================== *)
(** * Properties *)

(** ** Running against the doubles *)


Lemma record_run {S A C} (c : C) (m : M S A) (s : S) (calls : list C) :
  record c m (s, calls) = (fst (m s), (snd (m s), calls ++ [c])).
Proof.
  unfold record; simpl. destruct (m s); reflexivity.
Qed.

Lemma call_run {S A} (m : M S A) (s : S) (n : nat) :
  readme.call m (s, n) = (fst (m s), (snd (m s), n)).
Proof.
  unfold readme.call; simpl. destruct (m s); reflexivity.
Qed.

Lemma readme_List_run {S} (r : repository.UserRepository S) clock ctx limit offset s n :
  usecase.List (readme.NewUserUsecase r clock) ctx limit offset (s, n) =
  let l := if limit <=? 0 then 10 else limit in
  let o := if offset <? 0 then 0 else offset in
  (fst (repository.List r ctx l o s), (snd (repository.List r ctx l o s), n)).
Proof.
  simpl. unfold readme.userUsecase_List. apply call_run.
Qed.

(** ** C1: default limit and offset in [List] *)

(** C1, as amended.  In the readme's use case, [List] calls the repository's
    [List] exactly once, with limit 10 when the given limit is at most 0 and
    the given limit otherwise, and with offset 0 when the given offset is
    negative and the given offset otherwise.  The use case of
    src/internal/usecase/user_usecase.go calls the repository's [List] once
    with the limit and offset it was given, whatever they are. *)
Theorem List_defaults_by_variant :
  forall (S : Type) (r : repository.UserRepository S) (clock : nat -> Time)
         (ctx : Context) (limit offset : Z) (s : S),
    (exists l o,
        readme_List_calls r clock ctx limit offset s = [repository.CallList ctx l o]
        /\ (limit <= 0 -> l = 10) /\ (0 < limit -> l = limit)
        /\ (offset < 0 -> o = 0) /\ (0 <= offset -> o = offset))
    /\ src_List_calls r ctx limit offset s = [repository.CallList ctx limit offset].
Proof.
  intros S r clock ctx limit offset s. split.
  - exists (if limit <=? 0 then 10 else limit), (if offset <? 0 then 0 else offset).
    split.
    + unfold readme_List_calls. rewrite readme_List_run. cbv zeta.
      cbn [snd fst repository.spy repository.List]. rewrite record_run. reflexivity.
    + destruct (Z.leb_spec limit 0), (Z.ltb_spec offset 0); repeat split; lia.
  - unfold src_List_calls. cbn [usecase.List usecase.NewUserUsecase].
    unfold usecase.userUsecase_List. cbn [repository.spy repository.List].
    rewrite record_run. reflexivity.
Qed.

(** C1, witness: limit 0 and offset -1 against the table double. *)
Lemma List_defaults_by_variant_witness :
  readme_List_calls (readme.NewGormUserRepository readme.tableDB)
    (fun _ => 0) Background 0 (-1) []
  = [repository.CallList Background 10 0]
  /\ src_List_calls (readme.NewGormUserRepository readme.tableDB) Background 0 (-1) []
     = [repository.CallList Background 0 (-1)].
Proof.
  destruct (List_defaults_by_variant (list User)
              (readme.NewGormUserRepository readme.tableDB) (fun _ => 0)
              Background 0 (-1) [])
    as [[l [o [Hcalls [Hl [_ [Ho _]]]]]] Hsrc].
  rewrite (Hl ltac:(lia)), (Ho ltac:(lia)) in Hcalls.
  split; assumption.
Defined.

(** C1, counterexample.  The claim as stated, for the use case of
    src/internal/usecase/user_usecase.go: with limit 0 and offset -1 the
    repository's [List] receives 0 and -1, not 10 and 0. *)
Lemma src_List_keeps_nonpositive_limit :
  src_List_calls (readme.NewGormUserRepository readme.tableDB) Background 0 (-1) []
  = [repository.CallList Background 0 (-1)]
  /\ ~ (forall (S : Type) (r : repository.UserRepository S) ctx limit offset s,
          (limit <= 0 -> exists o,
              src_List_calls r ctx limit offset s = [repository.CallList ctx 10 o])
          /\ (offset < 0 -> exists l,
              src_List_calls r ctx limit offset s = [repository.CallList ctx l 0])).
Proof.
  split; [reflexivity|].
  intro H.
  destruct (H (list User) (readme.NewGormUserRepository readme.tableDB)
              Background 0 (-1) []) as [Hl _].
  destruct (Hl ltac:(lia)) as [o Ho]. vm_compute in Ho. discriminate Ho.
Qed.

(** ** C6: status codes *)

(** C6.  [getStatusCode] answers 404 for [ErrNotFound], 409 for [ErrConflict],
    401 for [ErrInvalidCredentials], and 500 for every other non-nil error,
    [ErrInternalServerError] and [ErrBadRequest] among them. *)
Theorem getStatusCode_table :
  forall err : error,
    readme.getStatusCode (Some err) =
    match err with
    | ErrNotFound => 404
    | ErrConflict => 409
    | ErrInvalidCredentials => 401
    | ErrInternalServerError | ErrBadRequest
    | sql_ErrNoRows | gorm_ErrRecordNotFound | errorString _ => 500
    end.
Proof.
  intros []; reflexivity.
Qed.

(** ** C8: the forwarding use case *)

(** C8.  Each operation of the use case of src/internal/usecase/user_usecase.go
    run on any repository state gives exactly what the repository's method
    of the same name gives on the same arguments (result, error and final state),
    and against the recording double it makes that one call and no other. *)
Theorem src_usecase_is_passthrough :
  forall (S : Type) (r : repository.UserRepository S)
         (ctx : Context) (id limit offset : Z) (user : User) (s : S),
    let u := usecase.NewUserUsecase r in
    let v := usecase.NewUserUsecase (repository.spy r) in
    (usecase.GetByID u ctx id s = repository.GetByID r ctx id s
     /\ usecase.Create u ctx user s = repository.Create r ctx user s
     /\ usecase.Update u ctx user s = repository.Update r ctx user s
     /\ usecase.Delete u ctx id s = repository.Delete r ctx id s
     /\ usecase.List u ctx limit offset s = repository.List r ctx limit offset s)
    /\ (snd (snd (usecase.GetByID v ctx id (s, []))) = [repository.CallGetByID ctx id]
        /\ snd (snd (usecase.Create v ctx user (s, []))) = [repository.CallCreate ctx user]
        /\ snd (snd (usecase.Update v ctx user (s, []))) = [repository.CallUpdate ctx user]
        /\ snd (snd (usecase.Delete v ctx id (s, []))) = [repository.CallDelete ctx id]
        /\ snd (snd (usecase.List v ctx limit offset (s, [])))
           = [repository.CallList ctx limit offset]).
Proof.
  intros S r ctx id limit offset user s u v. split.
  - repeat split; reflexivity.
  - subst v. cbn [usecase.GetByID usecase.Create usecase.Update usecase.Delete
                  usecase.List usecase.NewUserUsecase].
    unfold usecase.userUsecase_GetByID, usecase.userUsecase_Create,
      usecase.userUsecase_Update, usecase.userUsecase_Delete, usecase.userUsecase_List.
    cbn [repository.spy repository.GetByID repository.Create repository.Update
         repository.Delete repository.List].
    rewrite !record_run. repeat split; reflexivity.
Qed.

(** ** C9: the password is not serialized *)

Lemma members_ignore_password quote marshalTime (u : User) (p : string) :
  json.members quote marshalTime fields (set_Password p u)
  = json.members quote marshalTime fields u.
Proof.
  reflexivity.
Qed.

(** C9.  Two users that agree on every field but [Password] have the same
    JSON serialization (the same text, or the same error). *)
Theorem Marshal_hides_password :
  forall (quote : string -> string) (marshalTime : Time -> string + error) (u1 u2 : User),
    ID u1 = ID u2 -> Name u1 = Name u2 -> Email u1 = Email u2 ->
    CreatedAt u1 = CreatedAt u2 -> UpdatedAt u1 = UpdatedAt u2 ->
    json.Marshal quote marshalTime u1 = json.Marshal quote marshalTime u2.
Proof.
  intros quote marshalTime [i1 n1 e1 p1 c1 m1] [i2 n2 e2 p2 c2 m2]; simpl.
  intros -> -> -> -> ->.
  unfold json.Marshal.
  change (mkUser i2 n2 e2 p1 c2 m2) with (set_Password p1 (mkUser i2 n2 e2 p2 c2 m2)).
  rewrite members_ignore_password. reflexivity.
Qed.

(** C9, witness: two users with different passwords. *)
Lemma Marshal_hides_password_witness :
  json.Marshal (fun s => s) (fun t => inl (strconv.FormatInt t))
    (mkUser 1 "John Doe" "john@example.com" "secret" 5 6)
  = json.Marshal (fun s => s) (fun t => inl (strconv.FormatInt t))
      (mkUser 1 "John Doe" "john@example.com" "hunter2" 5 6).
Proof.
  apply Marshal_hides_password; reflexivity.
Defined.

(** ** C4: [Create] in the readme's use case *)

Lemma error_eqb_eq (a b : error) : error_eqb a b = true <-> a = b.
Proof.
  split.
  - destruct a, b; simpl; try discriminate; try reflexivity.
    intro H. apply String.eqb_eq in H. now subst.
  - intros <-. destruct a; simpl; try reflexivity. apply String.eqb_refl.
Qed.

Lemma isOtherThan_true (e target : error) :
  e <> target -> readme.isOtherThan (Some e) target = true.
Proof.
  intro Hne. simpl. destruct (error_eqb e target) eqn:E; [|reflexivity].
  apply error_eqb_eq in E. contradiction.
Qed.

(** The email lookup that opens [Create], run against the recording double. *)
Lemma Create_lookup_run {S} (r : repository.UserRepository S) ctx email s calls n :
  readme.call (repository.GetByEmail (repository.spy r) ctx email) ((s, calls), n)
  = (fst (repository.GetByEmail r ctx email s),
     ((snd (repository.GetByEmail r ctx email s),
       calls ++ [repository.CallGetByEmail ctx email]), n)).
Proof.
  rewrite call_run. cbn [repository.spy repository.GetByEmail].
  rewrite record_run. reflexivity.
Qed.

(** C4.  Let the repository's [GetByEmail] on the user's email return
    [(found, err)].  If [err] is nil and [found] is not, [Create] returns
    [ErrConflict] and the repository has seen the lookup only.  If [err] is an
    error other than [ErrNotFound], [Create] returns that error, again after
    the lookup only.  Otherwise [Create] reads the clock once, stores the
    reading in [CreatedAt] and [UpdatedAt], and returns what the repository's
    [Create] returns on the stamped user. *)
Theorem Create_checks_email_then_stamps :
  forall (S : Type) (r : repository.UserRepository S) (clock : nat -> Time)
         (ctx : Context) (user : User) (s s1 : S) (calls : list repository.Call)
         (n : nat) (found : option User) (err : option error),
    repository.GetByEmail r ctx (Email user) s = (Ret (found, err), s1) ->
    let run := usecase.Create (readme.NewUserUsecase (repository.spy r) clock)
                 ctx user ((s, calls), n) in
    let looked := calls ++ [repository.CallGetByEmail ctx (Email user)] in
    let stamped := set_UpdatedAt (clock n) (set_CreatedAt (clock n) user) in
    (err = None -> found <> None ->
     run = (Ret (Some ErrConflict, user), ((s1, looked), n)))
    /\ (forall e, err = Some e -> e <> ErrNotFound ->
        run = (Ret (Some e, user), ((s1, looked), n)))
    /\ (err = Some ErrNotFound \/ (err = None /\ found = None) ->
        run = (fst (repository.Create r ctx stamped s1),
               ((snd (repository.Create r ctx stamped s1),
                 looked ++ [repository.CallCreate ctx stamped]), Datatypes.S n))).
Proof.
  intros S r clock ctx user s s1 calls n found err Hlookup run looked stamped.
  assert (Hrun : run =
    (if readme.isNil err && negb (readme.isNil found)
     then ret (Some ErrConflict, user)
     else if readme.isOtherThan err ErrNotFound then ret (err, user)
     else bind (readme.time_Now clock)
            (fun now => readme.call
               (repository.Create (repository.spy r) ctx
                  (set_UpdatedAt now (set_CreatedAt now user)))))
    ((s1, looked), n)).
  { subst run. cbn [usecase.Create readme.NewUserUsecase].
    unfold readme.userUsecase_Create, bind at 1.
    rewrite (Create_lookup_run r), Hlookup. reflexivity. }
  repeat split.
  - intros -> Hfound. rewrite Hrun. destruct found; [reflexivity | contradiction].
  - intros e -> Hne. rewrite Hrun.
    cbn [readme.isNil andb]. rewrite (isOtherThan_true _ _ Hne). reflexivity.
  - intros Hgo. rewrite Hrun.
    assert (Hcond : readme.isNil err && negb (readme.isNil found) = false
                    /\ readme.isOtherThan err ErrNotFound = false).
    { destruct Hgo as [-> | [-> ->]]; split; reflexivity. }
    destruct Hcond as [-> ->].
    unfold bind, readme.time_Now. cbn [fst snd].
    rewrite call_run. cbn [repository.spy repository.Create].
    rewrite record_run. reflexivity.
Qed.

(** C4, witness: a stored email, an unreachable database, a new email. *)
Lemma Create_checks_email_then_stamps_witness :
  let john := mkUser 1 "John Doe" "john@example.com" "secret" 5 5 in
  let again := mkUser 0 "Johnny" "john@example.com" "pw" 0 0 in
  let jane := mkUser 0 "Jane" "jane@example.com" "pw" 0 0 in
  let clock := fun n : nat => 100 + Z.of_nat n in
  let table := readme.NewGormUserRepository readme.tableDB in
  let down := readme.NewGormUserRepository (readme.downDB (errorString "connection refused")) in
  usecase.Create (readme.NewUserUsecase (repository.spy table) clock)
    Background again (([john], []), 0%nat)
  = (Ret (Some ErrConflict, again),
     (([john], [repository.CallGetByEmail Background "john@example.com"]), 0%nat))
  /\ usecase.Create (readme.NewUserUsecase (repository.spy down) clock)
       Background jane ((tt, []), 0%nat)
     = (Ret (Some ErrInternalServerError, jane),
        ((tt, [repository.CallGetByEmail Background "jane@example.com"]), 0%nat))
  /\ usecase.Create (readme.NewUserUsecase (repository.spy table) clock)
       Background jane (([john], []), 0%nat)
     = (Ret (None, mkUser 2 "Jane" "jane@example.com" "pw" 100 100),
        (([john; mkUser 2 "Jane" "jane@example.com" "pw" 100 100],
          [repository.CallGetByEmail Background "jane@example.com";
           repository.CallCreate Background
             (mkUser 0 "Jane" "jane@example.com" "pw" 100 100)]), 1%nat)).
Proof.
  intros john again jane clock table down. split; [|split].
  - refine (proj1 (Create_checks_email_then_stamps (list User) table clock Background
                     again [john] [john] [] 0%nat (Some john) None _) _ _).
    + reflexivity.
    + reflexivity.
    + discriminate.
  - refine (proj1 (proj2 (Create_checks_email_then_stamps unit down clock Background
                     jane tt tt [] 0%nat None (Some ErrInternalServerError) _)) _ _ _).
    + reflexivity.
    + reflexivity.
    + discriminate.
  - refine (proj2 (proj2 (Create_checks_email_then_stamps (list User) table clock Background
                     jane [john] [john] [] 0%nat None (Some ErrNotFound) _)) _).
    + reflexivity.
    + left. reflexivity.
Defined.

(** ** C5: identifiers that are not stored *)




(** ** C7: presence check in [CreateUser] *)

(** C7.  When the user that [c.Bind] leaves behind has an empty [Name],
    [Email] or [Password], [CreateUser] answers 400 and leaves the state as it
    found it: against a recording use case no call is recorded, and with the
    readme's use case over a recording repository no repository call is
    recorded. *)
Theorem CreateUser_requires_fields :
  forall (c : readme.echo_Context) (user : User),
    snd (readme.Bind c zeroUser) = user ->
    Name user = "" \/ Email user = "" \/ Password user = "" ->
    exists msg,
      let bad := readme.mkResponse 400 (readme.Message msg) in
      (forall (W : Type) (u : usecase.UserUsecase W) (w : W) (calls : list usecase.Call),
          readme.CreateUser (usecase.spy u) c (w, calls) = (Ret bad, (w, calls)))
      /\ (forall (S : Type) (r : repository.UserRepository S) (clock : nat -> Time)
                 (s : S) (calls : list repository.Call) (n : nat),
          readme.CreateUser (readme.NewUserUsecase (repository.spy r) clock) c
            ((s, calls), n)
          = (Ret bad, ((s, calls), n))).
Proof.
  intros c user Hbind Hempty.
  assert (Hany : exists msg, forall (W : Type) (u : usecase.UserUsecase W) (w : W),
             readme.CreateUser u c w
             = (Ret (readme.mkResponse 400 (readme.Message msg)), w)).
  { unfold readme.CreateUser.
    destruct (readme.Bind c zeroUser) as [[e|] bound]; simpl in Hbind; subst bound.
    - exists (Error e). reflexivity.
    - exists "name, email and password are required". intros W u w.
      assert (Hcheck : String.eqb (Name user) "" || String.eqb (Email user) ""
                       || String.eqb (Password user) "" = true).
      { destruct Hempty as [-> | [-> | ->]]; simpl;
          rewrite ?orb_true_r; reflexivity. }
      rewrite Hcheck. reflexivity. }
  destruct Hany as [msg Hany]. exists msg. split; intros; apply Hany.
Qed.

(** C7, witness: a body with a name and an email and no password. *)
Lemma CreateUser_requires_fields_witness :
  let c := readme.mkEchoContext "" Background
             (fun dest => (None, set_Email "john@example.com" (set_Name "John Doe" dest))) in
  exists msg,
    let bad := readme.mkResponse 400 (readme.Message msg) in
    (forall (W : Type) (u : usecase.UserUsecase W) (w : W) (calls : list usecase.Call),
        readme.CreateUser (usecase.spy u) c (w, calls) = (Ret bad, (w, calls)))
    /\ (forall (S : Type) (r : repository.UserRepository S) (clock : nat -> Time)
               (s : S) (calls : list repository.Call) (n : nat),
        readme.CreateUser (readme.NewUserUsecase (repository.spy r) clock) c
          ((s, calls), n)
        = (Ret bad, ((s, calls), n))).
Proof.
  intros c.
  refine (CreateUser_requires_fields c
            (mkUser 0 "John Doe" "john@example.com" "" 0 0) _ _).
  - reflexivity.
  - right. right. reflexivity.
Defined.

(** ** C10: the path id wins in [UpdateUser] *)

(** C10.  When the path parameter parses to [id] and the body binds without
    error to [user], [UpdateUser] makes exactly one use-case call, [Update],
    on the bound user with its [ID] replaced by [id]. *)
Theorem UpdateUser_uses_path_id :
  forall (W : Type) (u : usecase.UserUsecase W) (c : readme.echo_Context)
         (w : W) (calls : list usecase.Call) (id : Z) (user : User),
    strconv.ParseUint (readme.Param_id c) 32 = inl id ->
    readme.Bind c zeroUser = (None, user) ->
    exists passed,
      snd (snd (readme.UpdateUser (usecase.spy u) c (w, calls)))
      = calls ++ [usecase.CallUpdate (readme.Request_Context c) passed]
      /\ ID passed = id
      /\ passed = set_ID id user.
Proof.
  intros W u c w calls id user Hid Hbind.
  exists (set_ID id user). split; [|split; reflexivity].
  unfold readme.UpdateUser. rewrite Hid, Hbind.
  unfold bind. cbn [usecase.spy usecase.Update]. rewrite record_run.
  destruct (usecase.Update u (readme.Request_Context c) (set_ID id user) w)
    as [[[[err|] user']|msg] w']; reflexivity.
Qed.

(** C10, witness: PUT /api/v1/users/42 with a body that says id 7. *)
Lemma UpdateUser_uses_path_id_witness :
  let c := readme.mkEchoContext "42" Background
             (fun dest => (None, set_Name "John Updated" (set_ID 7 dest))) in
  let u := usecase.NewUserUsecase (readme.NewGormUserRepository readme.tableDB) in
  exists passed,
    snd (snd (readme.UpdateUser (usecase.spy u) c ([], [])))
    = [] ++ [usecase.CallUpdate Background passed]
    /\ ID passed = 42
    /\ passed = set_ID 42 (mkUser 7 "John Updated" "" "" 0 0).
Proof.
  intros c u.
  apply (UpdateUser_uses_path_id (list User) u c [] [] 42
           (mkUser 7 "John Updated" "" "" 0 0)); reflexivity.
Defined.

(** ** C2: [GetByEmail] of the raw-SQL repository when the scan fails *)

(** C2, what the code does.  Whenever [row.Scan] fails with an error other
    than [sql.ErrNoRows], [GetByEmail] returns a nil error together with the
    user as the failed scan left it. *)
Theorem sqlite_GetByEmail_drops_scan_error :
  forall (formatTime : Time -> string) (ctx : Context) (email : string)
         (e : repository.Env) (err : error) (user : User),
    sql.Scan formatTime
      (sql.QueryRowContext (repository.db e) ctx (sql.SelectByEmail email))
      [FID; FName; FEmail; FPassword; FCreatedAt; FUpdatedAt] zeroUser = (Some err, user) ->
    err <> sql_ErrNoRows ->
    repository.sqlite_GetByEmail formatTime ctx email e = (Ret (Some user, None), e).
Proof.
  intros formatTime ctx email e err user Hscan Hne.
  unfold repository.sqlite_GetByEmail. rewrite Hscan.
  destruct (error_eqb err sql_ErrNoRows) eqn:E; [|reflexivity].
  apply error_eqb_eq in E. contradiction.
Qed.

(** C2, the failing inputs.  A cancelled context: the zero user comes back
    with a nil error.  A stored row whose password is NULL: the scan stops at
    the fourth column, and the half-filled user comes back with a nil error. *)
Lemma sqlite_GetByEmail_drops_scan_error_witness :
  let row := sql.mkRow (sql.Int64 2) (sql.Text "Jane") (sql.Text "jane@example.com")
               sql.Null (sql.TimeV 5) (sql.TimeV 6) in
  let e := repository.mkEnv (sql.mkDB [row] None) [] in
  repository.sqlite_GetByEmail (fun _ => "") Canceled "jane@example.com" e
  = (Ret (Some zeroUser, None), e)
  /\ repository.sqlite_GetByEmail (fun _ => "") Background "jane@example.com" e
     = (Ret (Some (mkUser 2 "Jane" "jane@example.com" "" 0 0), None), e).
Proof.
  intros row e. split.
  - apply (sqlite_GetByEmail_drops_scan_error (fun _ => "") Canceled "jane@example.com" e
             (errorString "context canceled") zeroUser); [reflexivity | discriminate].
  - apply (sqlite_GetByEmail_drops_scan_error (fun _ => "") Background "jane@example.com" e
             (sql.scanError 3 "converting NULL to string is unsupported")
             (mkUser 2 "Jane" "jane@example.com" "" 0 0)); [reflexivity | discriminate].
Defined.

(** ** C3: [GetByID] of the raw-SQL repository *)

Lemma filter_nil_existsb {A} (p : A -> bool) (l : list A) :
  filter p l = [] <-> existsb p l = false.
Proof.
  induction l as [|a l IH]; simpl; [tauto|].
  destruct (p a); simpl; [split; discriminate | exact IH].
Qed.

(** C3, what the code does.  On a live context and a working database,
    [GetByID] returns [ErrNotFound] when no stored row has the id, and
    otherwise [ErrInternalServerError] with a nil user: [row.Scan] is given
    five destinations for the six selected columns ([&user.Email] is not among
    them), so the scan of a row that exists always fails. *)
Theorem sqlite_GetByID_never_scans_a_row :
  forall (formatTime : Time -> string) (id : Z) (rows : list sql.UserRow)
         (lines : list string),
    fst (repository.sqlite_GetByID formatTime Background id
           (repository.mkEnv (sql.mkDB rows None) lines))
    = Ret (None,
           Some (if existsb (sql.selected (sql.SelectByID id)) rows
                 then ErrInternalServerError else ErrNotFound)).
Proof.
  intros formatTime id rows lines.
  unfold repository.sqlite_GetByID, sql.QueryRowContext, sql.Scan.
  cbn [ctx_Err repository.db sql.fault sql.users sql.row_err sql.row_rows].
  destruct (filter (sql.selected (sql.SelectByID id)) rows) as [|r rest] eqn:F.
  - apply filter_nil_existsb in F. rewrite F. reflexivity.
  - destruct (existsb (sql.selected (sql.SelectByID id)) rows) eqn:E.
    + reflexivity.
    + apply filter_nil_existsb in E. congruence.
Qed.

(** C3, the failing input: the row of John Doe is stored under id 1, and
    [GetByID 1] answers [ErrInternalServerError] and logs the scan error. *)
Example sqlite_GetByID_stored_row :
  let row := sql.mkRow (sql.Int64 1) (sql.Text "John Doe") (sql.Text "john@example.com")
               (sql.Text "secret") (sql.TimeV 5) (sql.TimeV 6) in
  repository.sqlite_GetByID (fun _ => "") Background 1
    (repository.mkEnv (sql.mkDB [row] None) [])
  = (Ret (None, Some ErrInternalServerError),
     repository.mkEnv (sql.mkDB [row] None)
       ["Error getting user by id: sql: expected 6 destination arguments in Scan, not 5"]).
Proof.
  reflexivity.
Qed.

(* ================================================================== *)
(** * Further properties of the code *)

(** ** The raw-SQL repository *)

Lemma filter_none {A} (p : A -> bool) (l : list A) :
  existsb p l = false -> filter p l = [].
Proof.
  apply filter_nil_existsb.
Qed.

(** X1.  Round trip through [GetByEmail]: on a live context and a working
    database, when the first stored row with the given email holds an integer
    id, text name and password and two times, [GetByEmail] returns exactly
    that row as a [User], with a nil error, and touches neither the database
    nor the log. *)
Theorem sqlite_GetByEmail_returns_stored_row :
  forall (formatTime : Time -> string) (email name password : string)
         (id : Z) (created updated : Time)
         (before after : list sql.UserRow) (lines : list string),
    existsb (sql.selected (sql.SelectByEmail email)) before = false ->
    let row := sql.mkRow (sql.Int64 id) (sql.Text name) (sql.Text email)
                 (sql.Text password) (sql.TimeV created) (sql.TimeV updated) in
    let e := repository.mkEnv (sql.mkDB (before ++ row :: after) None) lines in
    repository.sqlite_GetByEmail formatTime Background email e
    = (Ret (Some (mkUser id name email password created updated), None), e).
Proof.
  intros formatTime email name password id created updated before after lines Hbefore row e.
  unfold repository.sqlite_GetByEmail, sql.QueryRowContext, sql.Scan.
  cbn [ctx_Err e repository.db sql.fault sql.users sql.row_err sql.row_rows].
  rewrite filter_app, (filter_none _ _ Hbefore).
  cbn [app filter sql.selected row sql.col_email sql.value_eqb].
  rewrite String.eqb_refl. reflexivity.
Qed.

(** X1, witness: the second of two stored rows. *)
Lemma sqlite_GetByEmail_returns_stored_row_witness :
  let john := sql.mkRow (sql.Int64 1) (sql.Text "John Doe") (sql.Text "john@example.com")
                (sql.Text "secret") (sql.TimeV 5) (sql.TimeV 6) in
  let jane := sql.mkRow (sql.Int64 2) (sql.Text "Jane") (sql.Text "jane@example.com")
                (sql.Text "pw") (sql.TimeV 7) (sql.TimeV 8) in
  let e := repository.mkEnv (sql.mkDB [john; jane] None) [] in
  repository.sqlite_GetByEmail (fun _ => "") Background "jane@example.com" e
  = (Ret (Some (mkUser 2 "Jane" "jane@example.com" "pw" 7 8), None), e).
Proof.
  intros john jane e.
  exact (sqlite_GetByEmail_returns_stored_row (fun _ => "") "jane@example.com" "Jane" "pw"
           2 7 8 [john] [] [] eq_refl).
Defined.

(** X2.  On a live context and a working database, [GetByEmail] for an
    email that no stored row carries returns a nil user and [ErrNotFound]. *)
Theorem sqlite_GetByEmail_unknown_email :
  forall (formatTime : Time -> string) (email : string)
         (rows : list sql.UserRow) (lines : list string),
    existsb (sql.selected (sql.SelectByEmail email)) rows = false ->
    let e := repository.mkEnv (sql.mkDB rows None) lines in
    repository.sqlite_GetByEmail formatTime Background email e
    = (Ret (None, Some ErrNotFound), e).
Proof.
  intros formatTime email rows lines Hnone e.
  unfold repository.sqlite_GetByEmail, sql.QueryRowContext, sql.Scan.
  cbn [ctx_Err e repository.db sql.fault sql.users sql.row_err sql.row_rows].
  rewrite (filter_none _ _ Hnone). reflexivity.
Qed.

(** X2, witness: a table that stores John only. *)
Lemma sqlite_GetByEmail_unknown_email_witness :
  let john := sql.mkRow (sql.Int64 1) (sql.Text "John Doe") (sql.Text "john@example.com")
                (sql.Text "secret") (sql.TimeV 5) (sql.TimeV 6) in
  let e := repository.mkEnv (sql.mkDB [john] None) [] in
  repository.sqlite_GetByEmail (fun _ => "") Background "jane@example.com" e
  = (Ret (None, Some ErrNotFound), e).
Proof.
  intros john e.
  exact (sqlite_GetByEmail_unknown_email (fun _ => "") "jane@example.com" [john] []
           eq_refl).
Defined.

(** X3.  Whatever the context, the database and the email, [GetByEmail]
    returns (it does not panic), leaves database and log as they were, and
    gives either a user with a nil error or a nil user with [ErrNotFound]: it
    never reports [ErrInternalServerError] or any other error. *)
Theorem sqlite_GetByEmail_only_error_is_NotFound :
  forall (formatTime : Time -> string) (ctx : Context) (email : string)
         (e : repository.Env),
  exists (user : option User) (err : option error),
    repository.sqlite_GetByEmail formatTime ctx email e = (Ret (user, err), e)
    /\ ((user <> None /\ err = None) \/ (user = None /\ err = Some ErrNotFound)).
Proof.
  intros formatTime ctx email e. unfold repository.sqlite_GetByEmail.
  destruct (sql.Scan formatTime _ _ zeroUser) as [[err|] user].
  - destruct (error_eqb err sql_ErrNoRows).
    + exists None, (Some ErrNotFound). split; [reflexivity | right; split; reflexivity].
    + exists (Some user), None. split; [reflexivity | left; split; [discriminate | reflexivity]].
  - exists (Some user), None. split; [reflexivity | left; split; [discriminate | reflexivity]].
Qed.

(** The scan of [GetByID] never succeeds: a result set of this query has six
    columns in every row and the scan has five destinations. *)
Lemma sqlite_GetByID_scan_fails (formatTime : Time -> string) (d : sql.DB)
      (ctx : Context) (id : Z) (u : User) :
  exists err,
    fst (sql.Scan formatTime (sql.QueryRowContext d ctx (sql.SelectByID id))
           [FID; FName; FPassword; FCreatedAt; FUpdatedAt] u) = Some err.
Proof.
  unfold sql.Scan, sql.QueryRowContext.
  destruct (ctx_Err ctx) as [e|]; [exists e; reflexivity|].
  destruct (sql.fault d) as [e|]; [exists e; reflexivity|].
  cbn [sql.row_err sql.row_rows].
  destruct (filter (sql.selected (sql.SelectByID id)) (sql.users d)) as [|r rest].
  - exists sql_ErrNoRows. reflexivity.
  - simpl. eexists. reflexivity.
Qed.

(** X4.  Whatever the context, the database and the id, [GetByID] returns
    a nil user with [ErrNotFound] or [ErrInternalServerError]; it never returns
    a user.  The database is left as it was, and the log grows by exactly one
    line when the answer is [ErrInternalServerError] and not at all when it is
    [ErrNotFound]. *)
Theorem sqlite_GetByID_answers_and_log :
  forall (formatTime : Time -> string) (ctx : Context) (id : Z) (e : repository.Env),
  exists (err : error) (lines : list string),
    repository.sqlite_GetByID formatTime ctx id e
    = (Ret (None, Some err),
       repository.mkEnv (repository.db e) (repository.log e ++ lines))
    /\ ((err = ErrNotFound /\ lines = [])
        \/ (err = ErrInternalServerError /\ length lines = 1%nat)).
Proof.
  intros formatTime ctx id e. unfold repository.sqlite_GetByID.
  destruct (sqlite_GetByID_scan_fails formatTime (repository.db e) ctx id zeroUser)
    as [err Herr].
  destruct (sql.Scan formatTime _ _ zeroUser) as [serr user]. simpl in Herr. subst serr.
  destruct (error_eqb err sql_ErrNoRows).
  - exists ErrNotFound, []. split; [|left; split; reflexivity].
    rewrite app_nil_r. destruct e; reflexivity.
  - eexists ErrInternalServerError, [_]. split; [reflexivity|].
    right. split; reflexivity.
Qed.

(** X5.  The use case of src/internal/usecase/user_usecase.go wired to the
    raw-SQL repository panics with "unimplemented" in [Create], [Update],
    [Delete] and [List], for every argument, and leaves the state as it was. *)
Theorem src_usecase_over_sqlite_panics :
  forall (formatTime : Time -> string) (ctx : Context) (user : User)
         (id limit offset : Z) (e : repository.Env),
    let u := usecase.NewUserUsecase (repository.NewSQLiteUserRepository formatTime) in
    usecase.Create u ctx user e = (Panic "unimplemented", e)
    /\ usecase.Update u ctx user e = (Panic "unimplemented", e)
    /\ usecase.Delete u ctx id e = (Panic "unimplemented", e)
    /\ usecase.List u ctx limit offset e = (Panic "unimplemented", e).
Proof.
  intros. repeat split.
Qed.

(** ** The ORM-backed repository *)

(** X6.  Whatever a returning ORM call reports, the ORM-backed repository
    lets out only nil, [ErrNotFound] and [ErrInternalServerError].
    [GetByID] and [GetByEmail] return a user exactly when the error is nil;
    [Create] and [List] never answer [ErrNotFound], and [List] returns no
    users beside an error.  The state is the one the ORM call left. *)
Theorem gorm_repository_error_set :
  forall (D : Type) (db : readme.gorm.DB D) (ctx : Context) (d : D),
    let repo := readme.NewGormUserRepository db in
    (forall id res dest d1,
        readme.gorm.First db ctx id zeroUser d = (Ret (res, dest), d1) ->
        exists user err,
          repository.GetByID repo ctx id d = (Ret (user, err), d1)
          /\ nil_NotFound_or_Internal err /\ (user = None <-> err <> None))
    /\ (forall email res dest d1,
        readme.gorm.Where_email_First db ctx email zeroUser d = (Ret (res, dest), d1) ->
        exists user err,
          repository.GetByEmail repo ctx email d = (Ret (user, err), d1)
          /\ nil_NotFound_or_Internal err /\ (user = None <-> err <> None))
    /\ (forall user res user' d1,
        readme.gorm.Create db ctx user d = (Ret (res, user'), d1) ->
        exists err,
          repository.Create repo ctx user d = (Ret (err, user'), d1)
          /\ (err = None \/ err = Some ErrInternalServerError))
    /\ (forall user res user' d1,
        readme.gorm.Save db ctx user d = (Ret (res, user'), d1) ->
        exists err,
          repository.Update repo ctx user d = (Ret (err, user'), d1)
          /\ nil_NotFound_or_Internal err)
    /\ (forall id res d1,
        readme.gorm.Delete db ctx id d = (Ret res, d1) ->
        exists err,
          repository.Delete repo ctx id d = (Ret err, d1)
          /\ nil_NotFound_or_Internal err)
    /\ (forall limit offset res users d1,
        readme.gorm.Limit_Offset_Find db ctx limit offset d = (Ret (res, users), d1) ->
        exists users' err,
          repository.List repo ctx limit offset d = (Ret (users', err), d1)
          /\ ((err = None /\ users' = users)
              \/ (err = Some ErrInternalServerError /\ users' = []))).
Proof.
  intros D db ctx d repo. unfold nil_NotFound_or_Internal. subst repo.
  cbn [repository.GetByID repository.GetByEmail repository.Create repository.Update
       repository.Delete repository.List readme.NewGormUserRepository].
  repeat apply conj.
  - intros id res dest d1 H. unfold readme.gorm_GetByID, bind. rewrite H.
    destruct (readme.gorm.Error res) as [e|].
    + destruct (readme.gorm.errors_Is e gorm_ErrRecordNotFound);
        eexists None, _; (split; [reflexivity|]); split; auto;
        split; intro; [discriminate | reflexivity | discriminate | reflexivity].
    + exists (Some dest), None. split; [reflexivity|]. split; auto.
      split; intro; [discriminate | congruence].
  - intros email res dest d1 H. unfold readme.gorm_GetByEmail, bind. rewrite H.
    destruct (readme.gorm.Error res) as [e|].
    + destruct (readme.gorm.errors_Is e gorm_ErrRecordNotFound);
        eexists None, _; (split; [reflexivity|]); split; auto;
        split; intro; [discriminate | reflexivity | discriminate | reflexivity].
    + exists (Some dest), None. split; [reflexivity|]. split; auto.
      split; intro; [discriminate | congruence].
  - intros user res user' d1 H. unfold readme.gorm_Create, bind. rewrite H.
    destruct (readme.gorm.Error res); eexists; split; try reflexivity; auto.
  - intros user res user' d1 H. unfold readme.gorm_Update, bind. rewrite H.
    destruct (readme.gorm.Error res); [|destruct (readme.gorm.RowsAffected res =? 0)];
      eexists; split; try reflexivity; auto.
  - intros id res d1 H. unfold readme.gorm_Delete, bind. rewrite H.
    destruct (readme.gorm.Error res); [|destruct (readme.gorm.RowsAffected res =? 0)];
      eexists; split; try reflexivity; auto.
  - intros limit offset res users d1 H. unfold readme.gorm_List, bind. rewrite H.
    destruct (readme.gorm.Error res); eexists _, _; split; try reflexivity; auto.
Qed.

(** X6, witness: the unreachable database, where every ORM call fails with a
    driver error; each repository method answers [ErrInternalServerError]. *)
Lemma gorm_repository_error_set_witness :
  let repo := readme.NewGormUserRepository (readme.downDB (errorString "connection refused")) in
  let jane := mkUser 0 "Jane" "jane@example.com" "pw" 0 0 in
  (exists user err,
      repository.GetByID repo Background 1 tt = (Ret (user, err), tt)
      /\ nil_NotFound_or_Internal err /\ (user = None <-> err <> None))
  /\ (exists err,
      repository.Create repo Background jane tt = (Ret (err, jane), tt)
      /\ (err = None \/ err = Some ErrInternalServerError))
  /\ (exists err,
      repository.Delete repo Background 1 tt = (Ret err, tt)
      /\ nil_NotFound_or_Internal err).
Proof.
  intros repo jane.
  pose proof (gorm_repository_error_set unit
                (readme.downDB (errorString "connection refused")) Background tt)
    as [Hget [_ [Hcreate [_ [Hdelete _]]]]].
  split; [|split].
  - exact (Hget 1 _ _ _ eq_refl).
  - exact (Hcreate jane _ _ _ eq_refl).
  - exact (Hdelete 1 _ _ eq_refl).
Defined.

(** ** The readme's use case *)

(** X7.  [Update] first asks the repository for the user's id.  If that
    fails the error is returned as it is, the clock is not read and the
    repository's [Update] is not called.  Otherwise the clock is read once,
    the reading is stored in [UpdatedAt] only, and the repository's [Update]
    is called on the stamped user. *)
Theorem Update_checks_then_stamps :
  forall (S : Type) (r : repository.UserRepository S) (clock : nat -> Time)
         (ctx : Context) (user : User) (s s1 : S) (calls : list repository.Call)
         (n : nat) (found : option User) (err : option error),
    repository.GetByID r ctx (ID user) s = (Ret (found, err), s1) ->
    let run := usecase.Update (readme.NewUserUsecase (repository.spy r) clock)
                 ctx user ((s, calls), n) in
    let looked := calls ++ [repository.CallGetByID ctx (ID user)] in
    let stamped := mkUser (ID user) (Name user) (Email user) (Password user)
                     (CreatedAt user) (clock n) in
    (forall e, err = Some e -> run = (Ret (Some e, user), ((s1, looked), n)))
    /\ (err = None ->
        run = (fst (repository.Update r ctx stamped s1),
               ((snd (repository.Update r ctx stamped s1),
                 looked ++ [repository.CallUpdate ctx stamped]), Datatypes.S n))).
Proof.
  intros S r clock ctx user s s1 calls n found err Hget run looked stamped.
  assert (Hrun : run =
    match err with
    | Some e => ret (Some e, user)
    | None => bind (readme.time_Now clock)
                (fun now => readme.call
                   (repository.Update (repository.spy r) ctx (set_UpdatedAt now user)))
    end ((s1, looked), n)).
  { subst run. cbn [usecase.Update readme.NewUserUsecase].
    unfold readme.userUsecase_Update, bind at 1.
    rewrite call_run. cbn [repository.spy repository.GetByID].
    rewrite record_run, Hget. reflexivity. }
  split.
  - intros e ->. exact Hrun.
  - intros ->. rewrite Hrun. unfold bind, readme.time_Now. cbn [fst snd].
    rewrite call_run. cbn [repository.spy repository.Update].
    rewrite record_run. reflexivity.
Qed.

(** X7, witness: updating the stored user 1, and the missing user 7. *)
Lemma Update_checks_then_stamps_witness :
  let john := mkUser 1 "John Doe" "john@example.com" "secret" 5 5 in
  let renamed := mkUser 1 "John Updated" "john@example.com" "secret" 5 5 in
  let ghost := mkUser 7 "Ghost" "ghost@example.com" "pw" 0 0 in
  let clock := fun n : nat => 100 + Z.of_nat n in
  let table := readme.NewGormUserRepository readme.tableDB in
  usecase.Update (readme.NewUserUsecase (repository.spy table) clock)
    Background ghost (([john], []), 0%nat)
  = (Ret (Some ErrNotFound, ghost),
     (([john], [repository.CallGetByID Background 7]), 0%nat))
  /\ usecase.Update (readme.NewUserUsecase (repository.spy table) clock)
       Background renamed (([john], []), 0%nat)
     = (Ret (None, mkUser 1 "John Updated" "john@example.com" "secret" 5 100),
        (([mkUser 1 "John Updated" "john@example.com" "secret" 5 100],
          [repository.CallGetByID Background 1;
           repository.CallUpdate Background
             (mkUser 1 "John Updated" "john@example.com" "secret" 5 100)]), 1%nat)).
Proof.
  intros john renamed ghost clock table. split.
  - refine (proj1 (Update_checks_then_stamps (list User) table clock Background
                     ghost [john] [john] [] 0%nat None (Some ErrNotFound) _) _ _);
      reflexivity.
  - refine (proj2 (Update_checks_then_stamps (list User) table clock Background
                     renamed [john] [john] [] 0%nat (Some john) None _) _);
      reflexivity.
Defined.

(** ** The handler over the wiring of main.go *)

Lemma errors_Is_other (e : error) :
  e <> gorm_ErrRecordNotFound -> readme.gorm.errors_Is e gorm_ErrRecordNotFound = false.
Proof.
  intro Hne. unfold readme.gorm.errors_Is.
  destruct (error_eqb e gorm_ErrRecordNotFound) eqn:E; [|reflexivity].
  apply error_eqb_eq in E. contradiction.
Qed.

(** [GetByID] of the wiring, in terms of what the ORM's [First] reports. *)
Lemma main_GetByID_run {D} (db : readme.gorm.DB D) ctx id d (n : nat) res dest d1 :
  readme.gorm.First db ctx id zeroUser d = (Ret (res, dest), d1) ->
  readme.call (repository.GetByID (readme.NewGormUserRepository db) ctx id) (d, n)
  = (Ret (match readme.gorm.Error res with
          | Some e => if readme.gorm.errors_Is e gorm_ErrRecordNotFound
                      then (None, Some ErrNotFound)
                      else (None, Some ErrInternalServerError)
          | None => (Some dest, None)
          end), (d1, n)).
Proof.
  intro H. rewrite call_run. cbn [repository.GetByID readme.NewGormUserRepository].
  unfold readme.gorm_GetByID, bind. rewrite H.
  destruct (readme.gorm.Error res) as [e|]; [|reflexivity].
  destruct (readme.gorm.errors_Is e gorm_ErrRecordNotFound); reflexivity.
Qed.

(** X8.  GET /users/:id through handler, use case and ORM-backed repository,
    for an id that parses: 200 with the user the ORM found; 404 with the
    message of [ErrNotFound] when the ORM reports that no record was found;
    500 with the message of [ErrInternalServerError] on any other ORM
    error.  The clock is not read. *)
Theorem GetUser_end_to_end :
  forall (D : Type) (db : readme.gorm.DB D) (clock : nat -> Time)
         (c : readme.echo_Context) (d d1 : D) (n : nat) (id : Z)
         (res : readme.gorm.Result) (dest : User),
    strconv.ParseUint (readme.Param_id c) 32 = inl id ->
    readme.gorm.First db (readme.Request_Context c) id zeroUser d = (Ret (res, dest), d1) ->
    let run := readme.GetUser (main_usecase db clock) c (d, n) in
    (readme.gorm.Error res = None ->
     run = (Ret (readme.mkResponse 200 (readme.Data (Some dest))), (d1, n)))
    /\ (readme.gorm.Error res = Some gorm_ErrRecordNotFound ->
        run = (Ret (readme.mkResponse 404
                      (readme.Message "your requested item is not found")), (d1, n)))
    /\ (forall e, readme.gorm.Error res = Some e -> e <> gorm_ErrRecordNotFound ->
        run = (Ret (readme.mkResponse 500 (readme.Message "internal server error")),
               (d1, n))).
Proof.
  intros D db clock c d d1 n id res dest Hid Hfirst run.
  assert (Hrun : run =
    bind (readme.call (repository.GetByID (readme.NewGormUserRepository db)
                         (readme.Request_Context c) id))
      (fun '(user, err) =>
         match err with
         | Some e => readme.c_JSON (readme.getStatusCode err) (readme.Message (Error e))
         | None => readme.c_JSON readme.http.StatusOK (readme.Data user)
         end) (d, n)).
  { subst run. unfold readme.GetUser. rewrite Hid. reflexivity. }
  rewrite Hrun. unfold bind. rewrite (main_GetByID_run db _ _ _ n _ _ _ Hfirst).
  repeat apply conj.
  - intros ->. reflexivity.
  - intros ->. reflexivity.
  - intros e -> Hne. rewrite (errors_Is_other e Hne). reflexivity.
Qed.

(** X8, witness: GET /users/1 and GET /users/7 on a table that stores user 1,
    and GET /users/1 on the unreachable database. *)
Lemma GetUser_end_to_end_witness :
  let john := mkUser 1 "John Doe" "john@example.com" "secret" 5 5 in
  let clock := fun n : nat => 100 + Z.of_nat n in
  let get := fun id => readme.mkEchoContext id Background (fun dest => (None, dest)) in
  readme.GetUser (main_usecase readme.tableDB clock) (get "1") ([john], 0%nat)
  = (Ret (readme.mkResponse 200 (readme.Data (Some john))), ([john], 0%nat))
  /\ readme.GetUser (main_usecase readme.tableDB clock) (get "7") ([john], 0%nat)
     = (Ret (readme.mkResponse 404 (readme.Message "your requested item is not found")),
        ([john], 0%nat))
  /\ readme.GetUser (main_usecase (readme.downDB (errorString "connection refused")) clock)
       (get "1") (tt, 0%nat)
     = (Ret (readme.mkResponse 500 (readme.Message "internal server error")), (tt, 0%nat)).
Proof.
  intros john clock get. split; [|split].
  - refine (proj1 (GetUser_end_to_end (list User) readme.tableDB clock (get "1")
                     [john] [john] 0%nat 1 readme.found john _ _) _); reflexivity.
  - refine (proj1 (proj2 (GetUser_end_to_end (list User) readme.tableDB clock (get "7")
                     [john] [john] 0%nat 7 (readme.failed gorm_ErrRecordNotFound)
                     zeroUser _ _)) _); reflexivity.
  - refine (proj2 (proj2 (GetUser_end_to_end unit
                     (readme.downDB (errorString "connection refused")) clock (get "1")
                     tt tt 0%nat 1 (readme.failed (errorString "connection refused"))
                     zeroUser _ _)) _ _ _); [reflexivity | reflexivity | reflexivity | discriminate].
Defined.

(** X9.  DELETE /users/:id through handler, use case and ORM-backed
    repository, for an id that parses: 204 without a body when the ORM
    deleted at least one row; 404 when it reports no error and zero rows; 500
    when it reports an error. *)
Theorem DeleteUser_end_to_end :
  forall (D : Type) (db : readme.gorm.DB D) (clock : nat -> Time)
         (c : readme.echo_Context) (d d1 : D) (n : nat) (id : Z)
         (res : readme.gorm.Result),
    strconv.ParseUint (readme.Param_id c) 32 = inl id ->
    readme.gorm.Delete db (readme.Request_Context c) id d = (Ret res, d1) ->
    let run := readme.DeleteUser (main_usecase db clock) c (d, n) in
    (readme.gorm.Error res = None -> readme.gorm.RowsAffected res <> 0 ->
     run = (Ret (readme.mkResponse 204 readme.NoBody), (d1, n)))
    /\ (readme.gorm.Error res = None -> readme.gorm.RowsAffected res = 0 ->
        run = (Ret (readme.mkResponse 404
                      (readme.Message "your requested item is not found")), (d1, n)))
    /\ (readme.gorm.Error res <> None ->
        run = (Ret (readme.mkResponse 500 (readme.Message "internal server error")),
               (d1, n))).
Proof.
  intros D db clock c d d1 n id res Hid Hdel run.
  assert (Hrun : run =
    (Ret (match readme.gorm.Error res with
          | Some _ => readme.mkResponse 500 (readme.Message "internal server error")
          | None => if readme.gorm.RowsAffected res =? 0
                    then readme.mkResponse 404
                           (readme.Message "your requested item is not found")
                    else readme.mkResponse 204 readme.NoBody
          end), (d1, n))).
  { subst run. unfold readme.DeleteUser. rewrite Hid. unfold bind at 1.
    cbn [main_usecase usecase.Delete readme.NewUserUsecase].
    unfold readme.userUsecase_Delete. rewrite call_run.
    cbn [repository.Delete readme.NewGormUserRepository].
    unfold readme.gorm_Delete, bind. rewrite Hdel.
    destruct (readme.gorm.Error res); [reflexivity|].
    destruct (readme.gorm.RowsAffected res =? 0); reflexivity. }
  rewrite Hrun. repeat apply conj.
  - intros -> Hrows. apply Z.eqb_neq in Hrows. rewrite Hrows. reflexivity.
  - intros -> ->. reflexivity.
  - intros Herr. destruct (readme.gorm.Error res); [reflexivity | contradiction].
Qed.

(** X9, witness: DELETE /users/1 and DELETE /users/7 on a table that stores
    user 1. *)
Lemma DeleteUser_end_to_end_witness :
  let john := mkUser 1 "John Doe" "john@example.com" "secret" 5 5 in
  let clock := fun n : nat => 100 + Z.of_nat n in
  let del := fun id => readme.mkEchoContext id Background (fun dest => (None, dest)) in
  readme.DeleteUser (main_usecase readme.tableDB clock) (del "1") ([john], 0%nat)
  = (Ret (readme.mkResponse 204 readme.NoBody), ([], 0%nat))
  /\ readme.DeleteUser (main_usecase readme.tableDB clock) (del "7") ([john], 0%nat)
     = (Ret (readme.mkResponse 404 (readme.Message "your requested item is not found")),
        ([john], 0%nat)).
Proof.
  intros john clock del. split.
  - refine (proj1 (DeleteUser_end_to_end (list User) readme.tableDB clock (del "1")
                     [john] [] 0%nat 1 (readme.affected 1) _ _) _ _);
      [reflexivity | reflexivity | reflexivity | discriminate].
  - refine (proj1 (proj2 (DeleteUser_end_to_end (list User) readme.tableDB clock (del "7")
                     [john] [john] 0%nat 7 (readme.affected 0) _ _)) _ _); reflexivity.
Defined.

Lemma main_GetByEmail_run {D} (db : readme.gorm.DB D) ctx email d (n : nat) res dest d1 :
  readme.gorm.Where_email_First db ctx email zeroUser d = (Ret (res, dest), d1) ->
  readme.call (repository.GetByEmail (readme.NewGormUserRepository db) ctx email) (d, n)
  = (Ret (match readme.gorm.Error res with
          | Some e => if readme.gorm.errors_Is e gorm_ErrRecordNotFound
                      then (None, Some ErrNotFound)
                      else (None, Some ErrInternalServerError)
          | None => (Some dest, None)
          end), (d1, n)).
Proof.
  intro H. rewrite call_run. cbn [repository.GetByEmail readme.NewGormUserRepository].
  unfold readme.gorm_GetByEmail, bind. rewrite H.
  destruct (readme.gorm.Error res) as [e|]; [|reflexivity].
  destruct (readme.gorm.errors_Is e gorm_ErrRecordNotFound); reflexivity.
Qed.

Lemma required_fields_present (user : User) :
  Name user <> "" -> Email user <> "" -> Password user <> "" ->
  String.eqb (Name user) "" || String.eqb (Email user) "" || String.eqb (Password user) ""
  = false.
Proof.
  intros Hn He Hp.
  apply String.eqb_neq in Hn, He, Hp. now rewrite Hn, He, Hp.
Qed.

(** X10.  POST /users through handler, use case and ORM-backed repository,
    for a body that binds to a user with name, email and password: 409 when
    the ORM finds a user with that email, and nothing is inserted; 500 when
    the lookup fails otherwise; when the lookup reports that no record was
    found, the ORM's [Create] receives the user with both time stamps set to
    one clock reading, and the answer is 201 with the user as [Create] left
    it, or 500 when [Create] reports an error. *)
Theorem CreateUser_end_to_end :
  forall (D : Type) (db : readme.gorm.DB D) (clock : nat -> Time)
         (c : readme.echo_Context) (d d1 : D) (n : nat) (user : User)
         (res : readme.gorm.Result) (dest : User),
    readme.Bind c zeroUser = (None, user) ->
    Name user <> "" -> Email user <> "" -> Password user <> "" ->
    readme.gorm.Where_email_First db (readme.Request_Context c) (Email user) zeroUser d
    = (Ret (res, dest), d1) ->
    let run := readme.CreateUser (main_usecase db clock) c (d, n) in
    let stamped := mkUser (ID user) (Name user) (Email user) (Password user)
                     (clock n) (clock n) in
    (readme.gorm.Error res = None ->
     run = (Ret (readme.mkResponse 409 (readme.Message "your item already exists")),
            (d1, n)))
    /\ (forall e, readme.gorm.Error res = Some e -> e <> gorm_ErrRecordNotFound ->
        run = (Ret (readme.mkResponse 500 (readme.Message "internal server error")),
               (d1, n)))
    /\ (readme.gorm.Error res = Some gorm_ErrRecordNotFound ->
        forall res2 user2 d2,
          readme.gorm.Create db (readme.Request_Context c) stamped d1
          = (Ret (res2, user2), d2) ->
          (readme.gorm.Error res2 = None ->
           run = (Ret (readme.mkResponse 201 (readme.Data (Some user2))),
                  (d2, Datatypes.S n)))
          /\ (readme.gorm.Error res2 <> None ->
              run = (Ret (readme.mkResponse 500 (readme.Message "internal server error")),
                     (d2, Datatypes.S n)))).
Proof.
  intros D db clock c d d1 n user res dest Hbind Hn He Hp Hlookup run stamped.
  set (respond := fun r : option error * User =>
         let '(err, user) := r in
         match err with
         | Some e => @readme.c_JSON (D * nat) (readme.getStatusCode err)
                       (readme.Message (Error e))
         | None => readme.c_JSON readme.http.StatusCreated (readme.Data (Some user))
         end).
  assert (Hrun : run =
    bind (let '(existingUser, err) :=
            match readme.gorm.Error res with
            | Some e => if readme.gorm.errors_Is e gorm_ErrRecordNotFound
                        then (None, Some ErrNotFound)
                        else (None, Some ErrInternalServerError)
            | None => (Some dest, None)
            end in
          if readme.isNil err && negb (readme.isNil existingUser)
          then ret (Some ErrConflict, user)
          else if readme.isOtherThan err ErrNotFound then ret (err, user)
          else bind (readme.time_Now clock)
                 (fun now => readme.call
                    (repository.Create (readme.NewGormUserRepository db)
                       (readme.Request_Context c)
                       (set_UpdatedAt now (set_CreatedAt now user)))))
      respond (d1, n)).
  { subst run. unfold readme.CreateUser. rewrite Hbind.
    rewrite (required_fields_present user Hn He Hp).
    cbn [main_usecase usecase.Create readme.NewUserUsecase].
    unfold readme.userUsecase_Create, bind at 1 2.
    rewrite (main_GetByEmail_run db _ _ _ n _ _ _ Hlookup).
    unfold bind at 1. reflexivity. }
  rewrite Hrun. repeat apply conj.
  - intros ->. reflexivity.
  - intros e -> Hne. rewrite (errors_Is_other e Hne). reflexivity.
  - intros -> res2 user2 d2 Hcreate.
    assert (Hstep : bind (readme.time_Now clock)
                (fun now => readme.call
                   (repository.Create (readme.NewGormUserRepository db)
                      (readme.Request_Context c)
                      (set_UpdatedAt now (set_CreatedAt now user)))) (d1, n)
              = (Ret (match readme.gorm.Error res2 with
                      | Some _ => (Some ErrInternalServerError, user2)
                      | None => (None, user2)
                      end), (d2, Datatypes.S n))).
    { unfold bind, readme.time_Now. cbn [fst snd]. rewrite call_run.
      cbn [repository.Create readme.NewGormUserRepository].
      unfold readme.gorm_Create, bind.
      change (set_UpdatedAt (clock n) (set_CreatedAt (clock n) user)) with stamped.
      rewrite Hcreate. destruct (readme.gorm.Error res2); reflexivity. }
    cbn [readme.gorm.errors_Is error_eqb readme.isNil readme.isOtherThan andb negb].
    split; intros Herr; unfold bind at 1; rewrite Hstep.
    + rewrite Herr. reflexivity.
    + destruct (readme.gorm.Error res2); [reflexivity | contradiction].
Qed.

(** X10, witness: a new email and a stored email, on a table that stores John. *)
Lemma CreateUser_end_to_end_witness :
  let john := mkUser 1 "John Doe" "john@example.com" "secret" 5 5 in
  let clock := fun n : nat => 100 + Z.of_nat n in
  let post := fun name email password =>
    readme.mkEchoContext "" Background
      (fun dest => (None, set_Password password (set_Email email (set_Name name dest)))) in
  readme.CreateUser (main_usecase readme.tableDB clock)
    (post "Johnny" "john@example.com" "pw") ([john], 0%nat)
  = (Ret (readme.mkResponse 409 (readme.Message "your item already exists")),
     ([john], 0%nat))
  /\ readme.CreateUser (main_usecase readme.tableDB clock)
       (post "Jane" "jane@example.com" "pw") ([john], 0%nat)
     = (Ret (readme.mkResponse 201
               (readme.Data (Some (mkUser 2 "Jane" "jane@example.com" "pw" 100 100)))),
        ([john; mkUser 2 "Jane" "jane@example.com" "pw" 100 100], 1%nat)).
Proof.
  intros john clock post. split.
  - refine (proj1 (CreateUser_end_to_end (list User) readme.tableDB clock
                     (post "Johnny" "john@example.com" "pw") [john] [john] 0%nat
                     (mkUser 0 "Johnny" "john@example.com" "pw" 0 0)
                     readme.found john _ _ _ _ _) _);
      try reflexivity; discriminate.
  - refine (proj1 (proj2 (proj2 (CreateUser_end_to_end (list User) readme.tableDB clock
                     (post "Jane" "jane@example.com" "pw") [john] [john] 0%nat
                     (mkUser 0 "Jane" "jane@example.com" "pw" 0 0)
                     (readme.failed gorm_ErrRecordNotFound) zeroUser _ _ _ _ _)) _
                     (readme.affected 1) (mkUser 2 "Jane" "jane@example.com" "pw" 100 100)
                     [john; mkUser 2 "Jane" "jane@example.com" "pw" 100 100] _) _);
      try reflexivity; discriminate.
Defined.

(** X11.  PUT /users/:id through handler, use case and ORM-backed repository,
    for an id that parses and a body that binds: 404 when the ORM finds no
    record with the path id and 500 when the lookup fails otherwise, in both
    cases without saving anything; when the record exists, the ORM's [Save]
    receives the bound user with the path id and [UpdatedAt] set to one clock
    reading, and the answer is 200 with the user as [Save] left it, 404 when
    [Save] affected no row, or 500 when [Save] reports an error. *)
Theorem UpdateUser_end_to_end :
  forall (D : Type) (db : readme.gorm.DB D) (clock : nat -> Time)
         (c : readme.echo_Context) (d d1 : D) (n : nat) (id : Z) (user : User)
         (res : readme.gorm.Result) (dest : User),
    strconv.ParseUint (readme.Param_id c) 32 = inl id ->
    readme.Bind c zeroUser = (None, user) ->
    readme.gorm.First db (readme.Request_Context c) id zeroUser d = (Ret (res, dest), d1) ->
    let run := readme.UpdateUser (main_usecase db clock) c (d, n) in
    let stamped := mkUser id (Name user) (Email user) (Password user)
                     (CreatedAt user) (clock n) in
    (readme.gorm.Error res = Some gorm_ErrRecordNotFound ->
     run = (Ret (readme.mkResponse 404
                   (readme.Message "your requested item is not found")), (d1, n)))
    /\ (forall e, readme.gorm.Error res = Some e -> e <> gorm_ErrRecordNotFound ->
        run = (Ret (readme.mkResponse 500 (readme.Message "internal server error")),
               (d1, n)))
    /\ (readme.gorm.Error res = None ->
        forall res2 user2 d2,
          readme.gorm.Save db (readme.Request_Context c) stamped d1
          = (Ret (res2, user2), d2) ->
          (readme.gorm.Error res2 = None -> readme.gorm.RowsAffected res2 <> 0 ->
           run = (Ret (readme.mkResponse 200 (readme.Data (Some user2))),
                  (d2, Datatypes.S n)))
          /\ (readme.gorm.Error res2 = None -> readme.gorm.RowsAffected res2 = 0 ->
              run = (Ret (readme.mkResponse 404
                            (readme.Message "your requested item is not found")),
                     (d2, Datatypes.S n)))
          /\ (readme.gorm.Error res2 <> None ->
              run = (Ret (readme.mkResponse 500 (readme.Message "internal server error")),
                     (d2, Datatypes.S n)))).
Proof.
  intros D db clock c d d1 n id user res dest Hid Hbind Hfirst run stamped.
  set (respond := fun r : option error * User =>
         let '(err, user) := r in
         match err with
         | Some e => @readme.c_JSON (D * nat) (readme.getStatusCode err)
                       (readme.Message (Error e))
         | None => readme.c_JSON readme.http.StatusOK (readme.Data (Some user))
         end).
  assert (Hrun : run =
    bind (let '(_, err) :=
            match readme.gorm.Error res with
            | Some e => if readme.gorm.errors_Is e gorm_ErrRecordNotFound
                        then (@None User, Some ErrNotFound)
                        else (None, Some ErrInternalServerError)
            | None => (Some dest, None)
            end in
          match err with
          | Some e => ret (Some e, set_ID id user)
          | None => bind (readme.time_Now clock)
                      (fun now => readme.call
                         (repository.Update (readme.NewGormUserRepository db)
                            (readme.Request_Context c)
                            (set_UpdatedAt now (set_ID id user))))
          end)
      respond (d1, n)).
  { subst run. unfold readme.UpdateUser. rewrite Hid, Hbind.
    cbn [main_usecase usecase.Update readme.NewUserUsecase].
    unfold readme.userUsecase_Update, bind at 1 2.
    cbn [ID set_ID].
    rewrite (main_GetByID_run db _ _ _ n _ _ _ Hfirst).
    unfold bind at 1. reflexivity. }
  rewrite Hrun. repeat apply conj.
  - intros ->. reflexivity.
  - intros e -> Hne. rewrite (errors_Is_other e Hne). reflexivity.
  - intros -> res2 user2 d2 Hsave.
    assert (Hstep : bind (readme.time_Now clock)
                (fun now => readme.call
                   (repository.Update (readme.NewGormUserRepository db)
                      (readme.Request_Context c)
                      (set_UpdatedAt now (set_ID id user)))) (d1, n)
              = (Ret (match readme.gorm.Error res2 with
                      | Some _ => (Some ErrInternalServerError, user2)
                      | None => if readme.gorm.RowsAffected res2 =? 0
                                then (Some ErrNotFound, user2) else (None, user2)
                      end), (d2, Datatypes.S n))).
    { unfold bind, readme.time_Now. cbn [fst snd]. rewrite call_run.
      cbn [repository.Update readme.NewGormUserRepository].
      unfold readme.gorm_Update, bind.
      change (set_UpdatedAt (clock n) (set_ID id user)) with stamped.
      rewrite Hsave. destruct (readme.gorm.Error res2); [reflexivity|].
      destruct (readme.gorm.RowsAffected res2 =? 0); reflexivity. }
    repeat apply conj; intros Herr; try intros Hrows; unfold bind at 1; rewrite Hstep.
    + rewrite Herr. apply Z.eqb_neq in Hrows. rewrite Hrows. reflexivity.
    + rewrite Herr, Hrows. reflexivity.
    + destruct (readme.gorm.Error res2); [reflexivity | contradiction].
Qed.

(** X11, witness: PUT /users/1 and PUT /users/7 on a table that stores user 1;
    the body carries a name and an email. *)
Lemma UpdateUser_end_to_end_witness :
  let john := mkUser 1 "John Doe" "john@example.com" "secret" 5 5 in
  let clock := fun n : nat => 100 + Z.of_nat n in
  let put := fun id =>
    readme.mkEchoContext id Background
      (fun dest => (None, set_Email "john@example.com" (set_Name "John Updated" dest))) in
  let saved := mkUser 1 "John Updated" "john@example.com" "" 0 100 in
  readme.UpdateUser (main_usecase readme.tableDB clock) (put "7") ([john], 0%nat)
  = (Ret (readme.mkResponse 404 (readme.Message "your requested item is not found")),
     ([john], 0%nat))
  /\ readme.UpdateUser (main_usecase readme.tableDB clock) (put "1") ([john], 0%nat)
     = (Ret (readme.mkResponse 200 (readme.Data (Some saved))), ([saved], 1%nat)).
Proof.
  intros john clock put saved. split.
  - refine (proj1 (UpdateUser_end_to_end (list User) readme.tableDB clock (put "7")
                     [john] [john] 0%nat 7
                     (mkUser 0 "John Updated" "john@example.com" "" 0 0)
                     (readme.failed gorm_ErrRecordNotFound) zeroUser _ _ _) _);
      reflexivity.
  - refine (proj1 (proj2 (proj2 (UpdateUser_end_to_end (list User) readme.tableDB clock
                     (put "1") [john] [john] 0%nat 1
                     (mkUser 0 "John Updated" "john@example.com" "" 0 0)
                     readme.found john _ _ _)) _ (readme.affected 1) saved [saved] _) _ _);
      try reflexivity; discriminate.
Defined.

(** ** Path ids *)

Lemma digit_value_range (c : ascii) :
  strconv.is_digit c = true -> 0 <= strconv.digit_value c <= 9.
Proof.
  unfold strconv.is_digit, strconv.digit_value. intro H.
  apply andb_true_iff in H as [H1 H2].
  apply N.leb_le in H1, H2. lia.
Qed.

Lemma parse_digits_inl (maxVal : Z) (s : string) :
  forall n m, 0 <= n <= maxVal -> strconv.parse_digits maxVal s n = inl m ->
              all_digits s = true /\ n <= m <= maxVal.
Proof.
  induction s as [|c s IH]; simpl; intros n m Hn H.
  - injection H as <-. split; [reflexivity | lia].
  - destruct (strconv.is_digit c) eqn:Hc; [|discriminate].
    pose proof (digit_value_range c Hc) as Hd.
    destruct (maxVal <? n * 10 + strconv.digit_value c) eqn:Hmax; [discriminate|].
    apply Z.ltb_ge in Hmax.
    apply IH in H as [Hall Hm]; [|lia]. split; [exact Hall | lia].
Qed.

(** What [ParseUint] accepts with bit size 32: non-empty strings of decimal
    digits, with a value below 2^32. *)
Lemma ParseUint32_inl (s : string) (id : Z) :
  strconv.ParseUint s 32 = inl id ->
  s <> "" /\ all_digits s = true /\ 0 <= id < 2 ^ 32.
Proof.
  unfold strconv.ParseUint. destruct s as [|c s]; [discriminate|].
  intro H. apply parse_digits_inl in H; [|lia].
  split; [discriminate|]. split; [tauto | lia].
Qed.

(** X12.  When the id path parameter is empty or has a character that is
    not a decimal digit (a sign, a letter, a space), [GetUser], [UpdateUser]
    and [DeleteUser] answer 400 "invalid id parameter", make no use-case call
    and leave the state as it was; [UpdateUser] does so whatever the body. *)
Theorem invalid_id_is_BadRequest :
  forall (W : Type) (u : usecase.UserUsecase W) (c : readme.echo_Context)
         (w : W) (calls : list usecase.Call),
    readme.Param_id c = "" \/ all_digits (readme.Param_id c) = false ->
    let bad := readme.mkResponse 400 (readme.Message "invalid id parameter") in
    readme.GetUser (usecase.spy u) c (w, calls) = (Ret bad, (w, calls))
    /\ readme.UpdateUser (usecase.spy u) c (w, calls) = (Ret bad, (w, calls))
    /\ readme.DeleteUser (usecase.spy u) c (w, calls) = (Ret bad, (w, calls)).
Proof.
  intros W u c w calls Hbad bad.
  assert (Hparse : exists e, strconv.ParseUint (readme.Param_id c) 32 = inr e).
  { destruct (strconv.ParseUint (readme.Param_id c) 32) as [id|e] eqn:P; [|eauto].
    apply ParseUint32_inl in P as [Hne [Hall _]].
    destruct Hbad as [Hempty | Hdigit]; congruence. }
  destruct Hparse as [e Hparse].
  unfold readme.GetUser, readme.UpdateUser, readme.DeleteUser. rewrite Hparse.
  repeat split.
Qed.

(** X12, witness: GET /users/abc. *)
Lemma invalid_id_is_BadRequest_witness :
  let c := readme.mkEchoContext "abc" Background (fun dest => (None, dest)) in
  let u := usecase.NewUserUsecase (readme.NewGormUserRepository readme.tableDB) in
  let bad := readme.mkResponse 400 (readme.Message "invalid id parameter") in
  readme.GetUser (usecase.spy u) c ([], []) = (Ret bad, ([], []))
  /\ readme.UpdateUser (usecase.spy u) c ([], []) = (Ret bad, ([], []))
  /\ readme.DeleteUser (usecase.spy u) c ([], []) = (Ret bad, ([], [])).
Proof.
  intros c u bad.
  apply (invalid_id_is_BadRequest (list User) u c [] []). right. reflexivity.
Defined.

(** X13.  Whatever the request, [GetUser], [UpdateUser] and [DeleteUser]
    make at most one use-case call, and the id it carries (for [Update], the
    [ID] of the user) lies in 0 .. 2^32 - 1. *)
Theorem handler_ids_fit_32_bits :
  forall (W : Type) (u : usecase.UserUsecase W) (c : readme.echo_Context) (w : W),
    let made := fun (h : usecase.UserUsecase (W * list usecase.Call) ->
                         readme.echo_Context -> M (W * list usecase.Call) readme.Response) =>
                  snd (snd (h (usecase.spy u) c (w, []))) in
    (made readme.GetUser = []
     \/ exists ctx id, made readme.GetUser = [usecase.CallGetByID ctx id]
                       /\ 0 <= id < 2 ^ 32)
    /\ (made readme.UpdateUser = []
        \/ exists ctx user, made readme.UpdateUser = [usecase.CallUpdate ctx user]
                            /\ 0 <= ID user < 2 ^ 32)
    /\ (made readme.DeleteUser = []
        \/ exists ctx id, made readme.DeleteUser = [usecase.CallDelete ctx id]
                          /\ 0 <= id < 2 ^ 32).
Proof.
  intros W u c w made. subst made. cbv beta.
  unfold readme.GetUser, readme.UpdateUser, readme.DeleteUser.
  destruct (strconv.ParseUint (readme.Param_id c) 32) as [id|e] eqn:P.
  2: { repeat split; left; reflexivity. }
  apply ParseUint32_inl in P as [_ [_ Hrange]].
  repeat apply conj.
  - right. exists (readme.Request_Context c), id. split; [|exact Hrange].
    unfold bind. cbn [usecase.spy usecase.GetByID]. rewrite record_run.
    destruct (usecase.GetByID u (readme.Request_Context c) id w)
      as [[[user [e|]]|msg] w']; reflexivity.
  - destruct (readme.Bind c zeroUser) as [[e|] user].
    + left. reflexivity.
    + right. exists (readme.Request_Context c), (set_ID id user). split; [|exact Hrange].
      unfold bind. cbn [usecase.spy usecase.Update]. rewrite record_run.
      destruct (usecase.Update u (readme.Request_Context c) (set_ID id user) w)
        as [[[[e|] user']|msg] w']; reflexivity.
  - right. exists (readme.Request_Context c), id. split; [|exact Hrange].
    unfold bind. cbn [usecase.spy usecase.Delete]. rewrite record_run.
    destruct (usecase.Delete u (readme.Request_Context c) id w)
      as [[[e|]|msg] w']; reflexivity.
Qed.

(** ** [GetUsers] *)

(** The repository calls made by GET /users through the readme's use case
    over a recording repository. *)
Lemma GetUsers_calls_run {S} (r : repository.UserRepository S) (clock : nat -> Time)
      (QueryParam : string -> string) (c : readme.echo_Context) (s : S) (n : nat) :
  snd (fst (snd (readme.GetUsers (readme.NewUserUsecase (repository.spy r) clock)
                   QueryParam c ((s, []), n))))
  = [repository.CallList (readme.Request_Context c)
       (if fst (strconv.Atoi (QueryParam "limit")) <=? 0 then 10
        else fst (strconv.Atoi (QueryParam "limit")))
       (if fst (strconv.Atoi (QueryParam "offset")) <? 0 then 0
        else fst (strconv.Atoi (QueryParam "offset")))].
Proof.
  unfold readme.GetUsers.
  destruct (strconv.Atoi (QueryParam "limit")) as [limit le].
  destruct (strconv.Atoi (QueryParam "offset")) as [offset oe].
  unfold bind. rewrite readme_List_run. cbv zeta. cbn [fst snd].
  cbn [repository.spy repository.List]. rewrite record_run. cbn [fst snd app].
  destruct (fst (repository.List r _ _ _ s)) as [[users [e|]]|msg]; reflexivity.
Qed.

(** X14.  GET /users through the readme's use case: the repository's [List]
    is called exactly once.  A limit parameter that is absent, is not a number
    or is a number not above 0 reaches it as 10, and one that is a number
    above 0 as that number; an offset parameter that is absent, is not a
    number or is negative reaches it as 0, and one that is a number from 0 on
    as that number. *)
Theorem GetUsers_paging :
  forall (S : Type) (r : repository.UserRepository S) (clock : nat -> Time)
         (QueryParam : string -> string) (c : readme.echo_Context) (s : S) (n : nat),
  exists l o,
    snd (fst (snd (readme.GetUsers (readme.NewUserUsecase (repository.spy r) clock)
                     QueryParam c ((s, []), n))))
    = [repository.CallList (readme.Request_Context c) l o]
    /\ (QueryParam "limit" = ""
        \/ snd (strconv.Atoi (QueryParam "limit")) = Some strconv.ErrSyntax -> l = 10)
    /\ (forall v, strconv.Atoi (QueryParam "limit") = (v, None) ->
                  (v <= 0 -> l = 10) /\ (0 < v -> l = v))
    /\ (QueryParam "offset" = ""
        \/ snd (strconv.Atoi (QueryParam "offset")) = Some strconv.ErrSyntax -> o = 0)
    /\ (forall v, strconv.Atoi (QueryParam "offset") = (v, None) ->
                  (v < 0 -> o = 0) /\ (0 <= v -> o = v)).
Proof.
  intros S r clock QueryParam c s n.
  assert (Hsyntax : forall t,
             t = "" \/ snd (strconv.Atoi t) = Some strconv.ErrSyntax ->
             fst (strconv.Atoi t) = 0).
  { intros t [-> | H]; [reflexivity|].
    unfold strconv.Atoi in *. destruct (strconv.ParseInt64 t) as [v|[|]].
    - discriminate.
    - reflexivity.
    - destruct t as [|[[|] [|] [|] [|] [|] [|] [|] [|]] t']; discriminate. }
  eexists _, _. split; [apply GetUsers_calls_run|].
  repeat apply conj.
  - intro H. rewrite (Hsyntax _ H). reflexivity.
  - intros v ->. cbn [fst]. destruct (Z.leb_spec v 0); split; intro; lia.
  - intro H. rewrite (Hsyntax _ H). reflexivity.
  - intros v ->. cbn [fst]. destruct (Z.ltb_spec v 0); split; intro; lia.
Qed.

(** X14, witness: GET /users?limit=abc, and GET /users?limit=25&offset=50. *)
Lemma GetUsers_paging_witness :
  let c := readme.mkEchoContext "" Background (fun dest => (None, dest)) in
  let table := readme.NewGormUserRepository readme.tableDB in
  let clock := fun n : nat => 100 + Z.of_nat n in
  let q1 := fun name : string => if String.eqb name "limit" then "abc" else "" in
  let q2 := fun name : string => if String.eqb name "limit" then "25" else "50" in
  snd (fst (snd (readme.GetUsers (readme.NewUserUsecase (repository.spy table) clock)
                   q1 c (([], []), 0%nat))))
  = [repository.CallList Background 10 0]
  /\ snd (fst (snd (readme.GetUsers (readme.NewUserUsecase (repository.spy table) clock)
                      q2 c (([], []), 0%nat))))
     = [repository.CallList Background 25 50].
Proof.
  intros c table clock q1 q2. split.
  - destruct (GetUsers_paging (list User) table clock q1 c [] 0%nat)
      as [l [o [Hcalls [Hl [_ [Ho _]]]]]].
    rewrite (Hl (or_intror eq_refl)), (Ho (or_introl eq_refl)) in Hcalls. exact Hcalls.
  - destruct (GetUsers_paging (list User) table clock q2 c [] 0%nat)
      as [l [o [Hcalls [_ [Hl [_ Ho]]]]]].
    rewrite (proj2 (Hl 25 eq_refl) ltac:(lia)), (proj2 (Ho 50 eq_refl) ltac:(lia)) in Hcalls.
    exact Hcalls.
Defined.

(** X15.  A limit parameter that is a decimal number too large for an [int]
    is not replaced by the default: [Atoi] returns the largest [int] beside its
    range error, the handler drops the error, and the repository's [List] is
    called with limit 9223372036854775807. *)
Theorem GetUsers_huge_limit :
  forall (S : Type) (r : repository.UserRepository S) (clock : nat -> Time)
         (QueryParam : string -> string) (c : readme.echo_Context) (s : S) (n : nat),
    snd (strconv.Atoi (QueryParam "limit")) = Some strconv.ErrRange ->
    (forall rest, QueryParam "limit" <> String "-" rest) ->
    exists o,
      snd (fst (snd (readme.GetUsers (readme.NewUserUsecase (repository.spy r) clock)
                       QueryParam c ((s, []), n))))
      = [repository.CallList (readme.Request_Context c) 9223372036854775807 o].
Proof.
  intros S r clock QueryParam c s n Hrange Hsign.
  eexists. rewrite GetUsers_calls_run.
  assert (Hv : fst (strconv.Atoi (QueryParam "limit")) = 9223372036854775807).
  { unfold strconv.Atoi in *.
    destruct (strconv.ParseInt64 (QueryParam "limit")) as [v|[|]];
      [discriminate | discriminate |].
    destruct (QueryParam "limit") as [|ch rest]; [reflexivity|].
    destruct (Ascii.eqb ch "-") eqn:E.
    - apply Ascii.eqb_eq in E. subst ch. exfalso. exact (Hsign rest eq_refl).
    - destruct ch as [[|] [|] [|] [|] [|] [|] [|] [|]]; try reflexivity. discriminate E. }
  rewrite Hv. reflexivity.
Qed.

(** X15, witness: GET /users?limit=99999999999999999999. *)
Lemma GetUsers_huge_limit_witness :
  let c := readme.mkEchoContext "" Background (fun dest => (None, dest)) in
  let table := readme.NewGormUserRepository readme.tableDB in
  let q := fun name : string =>
             if String.eqb name "limit" then "99999999999999999999" else "" in
  exists o,
    snd (fst (snd (readme.GetUsers (readme.NewUserUsecase (repository.spy table) (fun _ => 0))
                     q c (([], []), 0%nat))))
    = [repository.CallList Background 9223372036854775807 o].
Proof.
  intros c table q.
  apply (GetUsers_huge_limit (list User) table (fun _ => 0) q c [] 0%nat).
  - reflexivity.
  - intros rest. discriminate.
Defined.

(** X16.  GET /users through handler, use case and ORM-backed repository:
    200 with the users the ORM's [Find] returned when it reports no error,
    and 500 with the message of [ErrInternalServerError] when it reports one;
    no other status is produced. *)
Theorem GetUsers_end_to_end :
  forall (D : Type) (db : readme.gorm.DB D) (clock : nat -> Time)
         (QueryParam : string -> string) (c : readme.echo_Context)
         (d d1 : D) (n : nat) (res : readme.gorm.Result) (users : list User),
    let limit := fst (strconv.Atoi (QueryParam "limit")) in
    let offset := fst (strconv.Atoi (QueryParam "offset")) in
    readme.gorm.Limit_Offset_Find db (readme.Request_Context c)
      (if limit <=? 0 then 10 else limit) (if offset <? 0 then 0 else offset) d
    = (Ret (res, users), d1) ->
    let run := readme.GetUsers (main_usecase db clock) QueryParam c (d, n) in
    (readme.gorm.Error res = None ->
     run = (Ret (readme.mkListResponse 200 (readme.ListData users)), (d1, n)))
    /\ (readme.gorm.Error res <> None ->
        run = (Ret (readme.mkListResponse 500
                      (readme.ListMessage "internal server error")), (d1, n))).
Proof.
  intros D db clock QueryParam c d d1 n res users limit offset Hfind run.
  assert (Hrun : run =
    (Ret (match readme.gorm.Error res with
          | Some _ => readme.mkListResponse 500 (readme.ListMessage "internal server error")
          | None => readme.mkListResponse 200 (readme.ListData users)
          end), (d1, n))).
  { subst run limit offset. unfold readme.GetUsers.
    destruct (strconv.Atoi (QueryParam "limit")) as [limit le].
    destruct (strconv.Atoi (QueryParam "offset")) as [offset oe].
    cbn [fst] in Hfind. unfold bind, main_usecase. rewrite readme_List_run. cbv zeta.
    cbn [repository.List readme.NewGormUserRepository fst snd].
    unfold readme.gorm_List, bind. rewrite Hfind.
    destruct (readme.gorm.Error res); reflexivity. }
  rewrite Hrun. split.
  - intros ->. reflexivity.
  - intro H. destruct (readme.gorm.Error res); [reflexivity | contradiction].
Qed.

(** X16, witness: GET /users?limit=1 on a table of two users, and GET /users
    on the unreachable database. *)
Lemma GetUsers_end_to_end_witness :
  let john := mkUser 1 "John Doe" "john@example.com" "secret" 5 5 in
  let jane := mkUser 2 "Jane" "jane@example.com" "pw" 7 7 in
  let c := readme.mkEchoContext "" Background (fun dest => (None, dest)) in
  let clock := fun n : nat => 100 + Z.of_nat n in
  let q := fun name : string => if String.eqb name "limit" then "1" else "" in
  readme.GetUsers (main_usecase readme.tableDB clock) q c ([john; jane], 0%nat)
  = (Ret (readme.mkListResponse 200 (readme.ListData [john])), ([john; jane], 0%nat))
  /\ readme.GetUsers (main_usecase (readme.downDB (errorString "connection refused")) clock)
       (fun _ => "") c (tt, 0%nat)
     = (Ret (readme.mkListResponse 500 (readme.ListMessage "internal server error")),
        (tt, 0%nat)).
Proof.
  intros john jane c clock q. split.
  - refine (proj1 (GetUsers_end_to_end (list User) readme.tableDB clock q c
                     [john; jane] [john; jane] 0%nat (readme.affected 1) [john] _) _);
      reflexivity.
  - refine (proj2 (GetUsers_end_to_end unit
                     (readme.downDB (errorString "connection refused")) clock
                     (fun _ => "") c tt tt 0%nat
                     (readme.failed (errorString "connection refused")) [] _) _);
      [reflexivity | discriminate].
Defined.

(** ** Configuration and database set-up *)

Lemma getEnv_run (key default : string) (os : readme.OS) :
  readme.getEnv key default os
  = (Ret (if String.eqb (readme.Getenv os key) "" then default else readme.Getenv os key),
     os).
Proof.
  unfold readme.getEnv. destruct (String.eqb (readme.Getenv os key) ""); reflexivity.
Qed.

Lemma setting_of_pick (env : string -> string) (key default : string) :
  setting_of env key default (if String.eqb (env key) "" then default else env key).
Proof.
  unfold setting_of. destruct (String.eqb_spec (env key) ""); split; intro; congruence.
Qed.

(** [LoadConfig], run: the settings are read from the environment that
    [godotenv.Load] leaves, and a warning is printed when it reports an error. *)
Lemma LoadConfig_run (load : (string -> string) -> option error * (string -> string))
      (os : readme.OS) :
  let env := snd (load (readme.Getenv os)) in
  let pick := fun key default => if String.eqb (env key) "" then default else env key in
  readme.LoadConfig load os
  = (Ret (readme.mkConfig (pick "APP_PORT" "8080") (pick "DB_DRIVER" "sqlite")
            (pick "DB_HOST" "localhost") (pick "DB_PORT" "3306") (pick "DB_USER" "root")
            (pick "DB_PASSWORD" "password") (pick "DB_NAME" "cleanarch")
            (pick "SQLITE_PATH" "database.db")),
     readme.mkOS env
       (match fst (load (readme.Getenv os)) with
        | Some _ => readme.printed os
                    ++ ["Warning: .env file not found. Using environment variables."]
        | None => readme.printed os
        end)).
Proof.
  intros env pick. subst env pick. unfold readme.LoadConfig, bind at 1 2.
  destruct (load (readme.Getenv os)) as [[e|] env]; cbn [fst snd];
    unfold readme.log_Println, ret, bind; rewrite !getEnv_run; reflexivity.
Qed.

(** X17.  [LoadConfig] returns for every environment and every outcome of
    loading the .env file.  Each setting is the value of its variable in the
    environment left by the load, or its default (8080, sqlite, localhost,
    3306, root, password, cleanarch, database.db) when that value is empty; so
    a variable set to the empty string counts as unset, and no setting is ever
    empty. *)
Theorem LoadConfig_settings :
  forall (load : (string -> string) -> option error * (string -> string))
         (os : readme.OS),
    let env := snd (load (readme.Getenv os)) in
    exists cfg os',
      readme.LoadConfig load os = (Ret cfg, os')
      /\ readme.Getenv os' = env
      /\ setting_of env "APP_PORT" "8080" (readme.AppPort cfg)
      /\ setting_of env "DB_DRIVER" "sqlite" (readme.DBDriver cfg)
      /\ setting_of env "DB_HOST" "localhost" (readme.DBHost cfg)
      /\ setting_of env "DB_PORT" "3306" (readme.DBPort cfg)
      /\ setting_of env "DB_USER" "root" (readme.DBUser cfg)
      /\ setting_of env "DB_PASSWORD" "password" (readme.DBPassword cfg)
      /\ setting_of env "DB_NAME" "cleanarch" (readme.DBName cfg)
      /\ setting_of env "SQLITE_PATH" "database.db" (readme.SQLitePath cfg)
      /\ (readme.AppPort cfg <> "" /\ readme.DBDriver cfg <> "" /\ readme.DBHost cfg <> ""
          /\ readme.DBPort cfg <> "" /\ readme.DBUser cfg <> ""
          /\ readme.DBPassword cfg <> "" /\ readme.DBName cfg <> ""
          /\ readme.SQLitePath cfg <> "").
Proof.
  intros load os env.
  eexists _, _. split; [apply LoadConfig_run|]. split; [reflexivity|].
  cbn [readme.AppPort readme.DBDriver readme.DBHost readme.DBPort readme.DBUser
       readme.DBPassword readme.DBName readme.SQLitePath].
  repeat (split; [apply setting_of_pick|]).
  repeat split;
    match goal with
    | |- (if String.eqb ?v "" then _ else _) <> "" =>
        destruct (String.eqb_spec v ""); [discriminate | assumption]
    end.
Qed.

(** X17, witness: no .env file, APP_PORT=9000 and every other variable
    empty or unset. *)
Lemma LoadConfig_settings_witness :
  let env := fun key : string => if String.eqb key "APP_PORT" then "9000" else "" in
  let load := fun e : string -> string => (Some (errorString "open .env: no such file"), e) in
  exists cfg os',
    readme.LoadConfig load (readme.mkOS env []) = (Ret cfg, os')
    /\ readme.AppPort cfg = "9000" /\ readme.DBDriver cfg = "sqlite"
    /\ readme.SQLitePath cfg = "database.db".
Proof.
  intros env load.
  destruct (LoadConfig_settings load (readme.mkOS env []))
    as [cfg [os' [Hrun [_ [Hport [Hdrv [_ [_ [_ [_ [_ [Hpath _]]]]]]]]]]]].
  exists cfg, os'. split; [exact Hrun|].
  split; [exact (proj2 Hport ltac:(discriminate))|].
  split; [exact (proj1 Hdrv eq_refl) | exact (proj1 Hpath eq_refl)].
Defined.

(** X18.  The database that main.go opens after [LoadConfig]: the first call
    of [setupDatabase] is [gorm.Open].  It is given the MySQL dialector, with
    the DSN user:password@tcp(host:port)/name and the fixed options, exactly
    when DB_DRIVER is the string mysql; for every other value, and when
    DB_DRIVER is empty or unset, it is given the SQLite dialector on
    SQLITE_PATH, or on database.db when that is empty or unset. *)
Theorem setupDatabase_choice :
  forall (load : (string -> string) -> option error * (string -> string))
         (os : readme.OS) (unreachable : readme.Dialector -> bool) (broken : bool),
    let env := snd (load (readme.Getenv os)) in
    exists cfg os' dial rest,
      readme.LoadConfig load os = (Ret cfg, os')
      /\ snd (readme.setupDatabase (readme.open_double unreachable)
                (readme.migrate_double broken) cfg [])
         = readme.CallOpen dial :: rest
      /\ (env "DB_DRIVER" = "mysql" ->
          dial = readme.mysql_Open
                   (readme.DBUser cfg ++ ":" ++ readme.DBPassword cfg ++ "@tcp("
                    ++ readme.DBHost cfg ++ ":" ++ readme.DBPort cfg ++ ")/"
                    ++ readme.DBName cfg
                    ++ "?charset=utf8mb4&parseTime=True&loc=Local")%string)
      /\ (env "DB_DRIVER" <> "mysql" ->
          dial = readme.sqlite_Open
                   (if String.eqb (env "SQLITE_PATH") "" then "database.db"
                    else env "SQLITE_PATH")).
Proof.
  intros load os unreachable broken env.
  pose proof (LoadConfig_run load os) as Hrun. cbv beta zeta in Hrun. fold env in Hrun.
  match type of Hrun with
  | _ = (Ret ?c, ?o) => set (cfg := c) in *; set (os' := o) in *
  end.
  assert (Hcalls : forall dial,
             snd (bind (readme.open_double unreachable dial)
                    (fun '(db, err) =>
                       match err with
                       | Some e => ret (@None unit, Some e)
                       | None =>
                           bind (readme.migrate_double broken db)
                             (fun err => match err with
                                         | Some e => ret (None, Some e)
                                         | None => ret (Some db, None)
                                         end)
                       end) [])
             = readme.CallOpen dial
               :: (if unreachable dial then [] else [readme.CallAutoMigrate])).
  { intro dial. unfold bind, readme.open_double, readme.migrate_double.
    destruct (unreachable dial); [reflexivity|]. destruct broken; reflexivity. }
  exists cfg, os'.
  destruct (String.eqb_spec (env "DB_DRIVER") "mysql") as [Hmy | Hother].
  - assert (Hdrv : String.eqb (readme.DBDriver cfg) "mysql" = true).
    { subst cfg. cbn [readme.DBDriver]. rewrite Hmy. reflexivity. }
    eexists _, _. split; [exact Hrun|]. split; [|split; [reflexivity | contradiction]].
    unfold readme.setupDatabase. rewrite Hdrv. apply Hcalls.
  - assert (Hdrv : String.eqb (readme.DBDriver cfg) "mysql" = false).
    { subst cfg. cbn [readme.DBDriver].
      destruct (String.eqb (env "DB_DRIVER") ""); [reflexivity|].
      apply String.eqb_neq. exact Hother. }
    eexists _, _. split; [exact Hrun|]. split; [|split; [contradiction | reflexivity]].
    unfold readme.setupDatabase. rewrite Hdrv. apply Hcalls.
Qed.

(** X18, witness: with DB_DRIVER=MYSQL (in capitals) the service opens SQLite
    on database.db. *)
Lemma setupDatabase_choice_witness :
  let env := fun key : string => if String.eqb key "DB_DRIVER" then "MYSQL" else "" in
  let load := fun e : string -> string => (@None error, e) in
  exists cfg os' rest,
    readme.LoadConfig load (readme.mkOS env []) = (Ret cfg, os')
    /\ snd (readme.setupDatabase (readme.open_double (fun _ => false))
              (readme.migrate_double false) cfg [])
       = readme.CallOpen (readme.sqlite_Open "database.db") :: rest.
Proof.
  intros env load.
  destruct (setupDatabase_choice load (readme.mkOS env []) (fun _ => false) false)
    as [cfg [os' [dial [rest [Hrun [Hcalls [_ Hsqlite]]]]]]].
  exists cfg, os', rest. split; [exact Hrun|].
  rewrite Hcalls, (Hsqlite ltac:(discriminate)). reflexivity.
Defined.

(** X19.  [setupDatabase] hands out a database handle only after both
    [gorm.Open] and [AutoMigrate] succeeded.  When [gorm.Open] fails its error
    is returned with no handle and [AutoMigrate] is not run; when
    [AutoMigrate] fails its error is returned with no handle.  A handle and
    an error never come together. *)
Theorem setupDatabase_all_or_nothing :
  forall (X Handle : Type)
         (gorm_Open : readme.Dialector -> M X (Handle * option error))
         (AutoMigrate : Handle -> M X (option error))
         (cfg : readme.Config) (x x1 : X) (h : Handle) (oerr : option error),
    let dial :=
      if String.eqb (readme.DBDriver cfg) "mysql"
      then readme.mysql_Open
             (readme.DBUser cfg ++ ":" ++ readme.DBPassword cfg ++ "@tcp("
              ++ readme.DBHost cfg ++ ":" ++ readme.DBPort cfg ++ ")/"
              ++ readme.DBName cfg ++ "?charset=utf8mb4&parseTime=True&loc=Local")%string
      else readme.sqlite_Open (readme.SQLitePath cfg) in
    gorm_Open dial x = (Ret (h, oerr), x1) ->
    let run := readme.setupDatabase gorm_Open AutoMigrate cfg x in
    (forall e, oerr = Some e -> run = (Ret (None, Some e), x1))
    /\ (oerr = None ->
        forall (merr : option error) (x2 : X),
          AutoMigrate h x1 = (Ret merr, x2) ->
          (forall e, merr = Some e -> run = (Ret (None, Some e), x2))
          /\ (merr = None -> run = (Ret (Some h, None), x2))).
Proof.
  intros X Handle gorm_Open AutoMigrate cfg x x1 h oerr dial Hopen run.
  subst run dial. unfold readme.setupDatabase.
  destruct (String.eqb (readme.DBDriver cfg) "mysql");
    unfold readme.NewMySQLDatabase, readme.NewSQLiteDatabase, bind;
    rewrite Hopen;
    (split; [intros e ->; reflexivity|]);
    intros -> merr x2 Hmig; cbv beta iota; rewrite Hmig;
    (split; [intros e ->; reflexivity | intros ->; reflexivity]).
Qed.

(** X19, witness: on a reachable SQLite database, a failing and a successful
    migration. *)
Lemma setupDatabase_all_or_nothing_witness :
  let cfg := readme.mkConfig "8080" "sqlite" "localhost" "3306" "root" "password"
               "cleanarch" "database.db" in
  let opened := [readme.CallOpen (readme.sqlite_Open "database.db");
                 readme.CallAutoMigrate] in
  readme.setupDatabase (readme.open_double (fun _ => false)) (readme.migrate_double true)
    cfg []
  = (Ret (None, Some (errorString "migration failed")), opened)
  /\ readme.setupDatabase (readme.open_double (fun _ => false)) (readme.migrate_double false)
       cfg []
     = (Ret (Some tt, None), opened).
Proof.
  intros cfg opened. split.
  - refine (proj1 (proj2 (setupDatabase_all_or_nothing (list readme.SetupCall) unit
                     (readme.open_double (fun _ => false)) (readme.migrate_double true)
                     cfg [] [readme.CallOpen (readme.sqlite_Open "database.db")] tt None _)
                     eq_refl (Some (errorString "migration failed")) opened _) _ _);
      reflexivity.
  - refine (proj2 (proj2 (setupDatabase_all_or_nothing (list readme.SetupCall) unit
                     (readme.open_double (fun _ => false)) (readme.migrate_double false)
                     cfg [] [readme.CallOpen (readme.sqlite_Open "database.db")] tt None _)
                     eq_refl None opened _) _);
      reflexivity.
Defined.

(** ** The readme's use case, forwarding methods *)

(** X20.  [GetByID] and [Delete] of the readme's use case make exactly one
    repository call, with the arguments they were given, return what it
    returns, and do not read the clock. *)
Theorem readme_GetByID_Delete_forward :
  forall (S : Type) (r : repository.UserRepository S) (clock : nat -> Time)
         (ctx : Context) (id : Z) (s : S) (calls : list repository.Call) (n : nat),
    let u := readme.NewUserUsecase (repository.spy r) clock in
    usecase.GetByID u ctx id ((s, calls), n)
    = (fst (repository.GetByID r ctx id s),
       ((snd (repository.GetByID r ctx id s), calls ++ [repository.CallGetByID ctx id]), n))
    /\ usecase.Delete u ctx id ((s, calls), n)
       = (fst (repository.Delete r ctx id s),
          ((snd (repository.Delete r ctx id s), calls ++ [repository.CallDelete ctx id]), n)).
Proof.
  intros S r clock ctx id s calls n u. subst u.
  cbn [usecase.GetByID usecase.Delete readme.NewUserUsecase].
  unfold readme.userUsecase_GetByID, readme.userUsecase_Delete.
  rewrite !call_run. cbn [repository.spy repository.GetByID repository.Delete].
  rewrite !record_run. split; reflexivity.
Qed.
